(** * session_keeper.py: the SessionKeeper class and its [main]

    A shallow embedding of [src/session_keeper.py].  The script drives a
    browser through Selenium: it logs in, moves to a session page and then
    reloads that page on a timer until a retry budget is used up or the user
    interrupts it.

    The browser, the clock, the file system and the keyboard are outside the
    program.  They are modelled by an [environment] record that fixes, for
    every call the program can make to them, what the call does: return a
    value, raise a Python exception, or never come back.  The program itself
    is a function in a small state-and-exception monad over a [world] that
    holds the attributes of the [SessionKeeper] object, the trace of the
    calls made so far and the log. *)

From Stdlib Require Import ZArith QArith.QArith_base Lia.
From stdpp Require Import base strings gmap list.

Set Warnings "-register-all".
Local Open Scope Z_scope.

(** ** Values read from [config.json]

    [json.load] yields Python objects; a JSON object becomes a [dict] keyed by
    strings.  Finite floats are kept as the rationals they denote, which is
    what Python's comparison of an [int] with a [float] looks at. *)

Inductive json :=
| JNull
| JBool (b : bool)
| JInt (z : Z)
| JFloat (q : Q)
| JStr (s : string)
| JList (l : list json)
| JDict (m : gmap string json).

(** Python exceptions the script raises, catches or lets through. *)
Inductive exn :=
| KeyboardInterrupt
| SystemExit (code : Z)
| KeyError (key : string)
| TypeError
| AttributeError
| ValueError
| OSError
| FileNotFoundError
| JSONDecodeError
| WebDriverException
| TimeoutException
| NoSuchElementException
| Exception (msg : string).

(** The class tests behind [except Exception], [except WebDriverException],
    [except TimeoutException], [except FileNotFoundError] and
    [except json.JSONDecodeError]. *)
Definition is_Exception (e : exn) : bool :=
  match e with
  | KeyboardInterrupt | SystemExit _ => false
  | _ => true
  end.

Definition is_WebDriverException (e : exn) : bool :=
  match e with
  | WebDriverException | TimeoutException | NoSuchElementException => true
  | _ => false
  end.

Definition is_TimeoutException (e : exn) : bool :=
  match e with TimeoutException => true | _ => false end.

Definition is_FileNotFoundError (e : exn) : bool :=
  match e with FileNotFoundError => true | _ => false end.

Definition is_JSONDecodeError (e : exn) : bool :=
  match e with JSONDecodeError => true | _ => false end.

Definition is_KeyboardInterrupt (e : exn) : bool :=
  match e with KeyboardInterrupt => true | _ => false end.

(** What one call does: it returns a value or it raises. *)
Inductive reply (A : Type) :=
| Returns (a : A)
| Raises (e : exn).
Arguments Returns {A} a.
Arguments Raises {A} e.

(** What a method does: it returns, it raises, or, for the keepalive loop and
    its callers, it is still running at the end of the observed execution. *)
Inductive result (A : Type) :=
| Ok (a : A)
| Raise (e : exn)
| Running.
Arguments Ok {A} a.
Arguments Raise {A} e.
Arguments Running {A}.

Definition of_reply {A} (r : reply A) : result A :=
  match r with
  | Returns a => Ok a
  | Raises e => Raise e
  end.

(** ** Python operations on configuration values *)

(** [if v:] *)
Definition truthy (v : json) : bool :=
  match v with
  | JNull => false
  | JBool b => b
  | JInt z => negb (z =? 0)
  | JFloat q => negb (Qeq_bool q (inject_Z 0))
  | JStr s => match s with EmptyString => false | _ => true end
  | JList l => match l with [] => false | _ => true end
  | JDict m => match map_to_list m with [] => false | _ => true end
  end.

(** [v[key]] with a string key. *)
Definition subscript (v : json) (key : string) : reply json :=
  match v with
  | JDict m => match m !! key with Some x => Returns x | None => Raises (KeyError key) end
  | _ => Raises TypeError
  end.

(** [v.get(key, dflt)] *)
Definition py_get (v : json) (key : string) (dflt : json) : reply json :=
  match v with
  | JDict m => Returns (default dflt (m !! key))
  | _ => Raises AttributeError
  end.

(** [n >= v] for an [int] [n]: numbers compare by value ([bool] is a
    subclass of [int]); anything else raises [TypeError]. *)
Definition py_ge (n : Z) (v : json) : reply bool :=
  match v with
  | JInt m => Returns (m <=? n)
  | JBool b => Returns ((if b then 1 else 0) <=? n)
  | JFloat q => Returns (Qle_bool q (inject_Z n))
  | _ => Raises TypeError
  end.

(** [s != v] for a [str] [s]: only an equal string is equal. *)
Definition py_ne (s : string) (v : json) : bool :=
  match v with
  | JStr s' => negb (String.eqb s s')
  | _ => true
  end.

(** ** The world *)

(** [self.driver] when it is not [None]. *)
Inductive handle := ChromeDriver.

(** A [WebElement] handed out by the browser. *)
Inductive element := Element (id : nat).

Inductive By := By_NAME | By_ID | By_XPATH.

(** The methods of the script; entering one is recorded in the trace. *)
Inductive method :=
| m_load_config | m_setup_driver | m_login | m_navigate_to_session_url
| m_refresh_page | m_keep_session_alive | m_run | m_cleanup | m_main.

(** Calls that leave the program, in the order they are made. *)
Inductive event :=
| Enter (m : method)
| OpenJson (path : string)            (* open(path) and json.load *)
| Chrome (arguments : list string)    (* webdriver.Chrome(options=options) *)
| DriverGet (url : json)              (* driver.get(url) *)
| WaitPresence (b : By) (value timeout : json)
| FindElement (b : By) (value : json) (* driver.find_element(b, value) *)
| ElemClear (el : element)
| ElemSendKeys (el : element) (text : json)
| ElemClick (el : element)
| CurrentUrl                          (* driver.current_url *)
| DriverRefresh                       (* driver.refresh() *)
| DriverQuit                          (* driver.quit() *)
| Sleep (seconds : json).             (* time.sleep(seconds) *)

Inductive level := INFO | WARNING | ERROR.

(** A log record.  [text] is the message as the source writes it; the values
    an f-string interpolates are not rendered. *)
Record entry := Entry { lvl : level; text : string }.

(** The [SessionKeeper] object's mutable attributes, the trace and the log.
    [self.config] is assigned once and is passed around as a value. *)
Record world := World {
  driver : option handle;
  is_logged_in : bool;
  trace : list event;
  log : list entry
}.

(** ** The monad: state passing with Python's exceptions *)

Definition M (A : Type) : Type := world -> result A * world.

#[export] Instance M_ret : MRet M := fun A a w => (Ok a, w).

#[export] Instance M_bind : MBind M := fun A B k m w =>
  match m w with
  | (Ok a, w') => k a w'
  | (Raise e, w') => (Raise e, w')
  | (Running, w') => (Running, w')
  end.

Definition raise {A} (e : exn) : M A := fun w => (Raise e, w).

(** An operation that returns or raises without touching the world. *)
Definition lift {A} (r : reply A) : M A := fun w => (of_reply r, w).

(** The observed execution ends here. *)
Definition running {A} : M A := fun w => (Running, w).

(** [try: m  except ...: ...]; [handler e] is the body of the first clause
    that matches [e], if any. *)
Definition try_except {A} (m : M A) (handler : exn -> option (M A)) : M A :=
  fun w =>
    match m w with
    | (Raise e, w') =>
        match handler e with
        | Some h => h w'
        | None => (Raise e, w')
        end
    | rw => rw
    end.

(** [try: m  finally: f].  The [finally] block runs when [m] returns or
    raises; what [m] did stands unless [f] itself raises. *)
Definition try_finally {A} (m : M A) (f : M ()) : M A :=
  fun w =>
    match m w with
    | (Running, w') => (Running, w')
    | (r, w') =>
        match f w' with
        | (Ok _, w'') => (r, w'')
        | (Raise e, w'') => (Raise e, w'')
        | (Running, w'') => (Running, w'')
        end
    end.

Definition emit (e : event) : M () :=
  fun w => (Ok (), World (driver w) (is_logged_in w) (trace w ++ [e]) (log w)).

(** [logger.info], [logger.warning], [logger.error] *)
Definition logger (l : level) (msg : string) : M () :=
  fun w => (Ok (), World (driver w) (is_logged_in w) (trace w) (log w ++ [Entry l msg])).

Definition set_driver (d : option handle) : M () :=
  fun w => (Ok (), World d (is_logged_in w) (trace w) (log w)).

Definition set_is_logged_in (b : bool) : M () :=
  fun w => (Ok (), World (driver w) b (trace w) (log w)).

Definition get_driver : M (option handle) := fun w => (Ok (driver w), w).

(** A call that leaves the program: it is recorded, then does what the
    environment says. *)
Definition call {A} (e : event) (r : reply A) : M A :=
  emit e;; lift r.

(** A call on [self.driver]: an attribute of [None] does not exist. *)
Definition driver_call {A} (e : event) (r : reply A) : M A :=
  d ← get_driver;
  match d with
  | Some _ => call e r
  | None => raise AttributeError
  end.

(** [except Exception: h] as the only clause. *)
Definition except_Exception {A} (h : M A) : exn -> option (M A) :=
  fun e => if is_Exception e then Some h else None.

(** ** The environment *)

(** One turn of the keepalive loop: what [time.sleep(refresh_interval)] and
    then [driver.refresh()] do. *)
Record cycle := Cycle {
  sleep_reply : reply ();
  refresh_reply : reply ()
}.

(** What every call that leaves the program does, one field per call site.
    [cycles] lists the turns of the keepalive loop that are observed; when it
    is used up the loop is still running. *)
Record environment := Environment {
  config_json : reply json;            (* open(config_file) and json.load(f) *)
  chrome : reply handle;               (* webdriver.Chrome(options=options) *)
  login_get : reply ();                (* driver.get(login_url) *)
  username_wait : reply element;       (* wait.until(presence_of_element_located) *)
  username_clear : reply ();
  username_send_keys : reply ();
  password_find : reply element;
  password_clear : reply ();
  password_send_keys : reply ();
  submit_configured : reply element;   (* find_element(By.XPATH, submit_xpath) *)
  submit_loginbtn : reply element;     (* find_element(By.ID, 'loginbtn') *)
  submit_button_tag : reply element;   (* find_element(By.XPATH, //button[@type='submit']) *)
  submit_input_tag : reply element;    (* find_element(By.XPATH, //input[@type='submit']) *)
  submit_click : reply ();
  login_sleep : reply ();              (* time.sleep(3) *)
  current_url : reply string;          (* driver.current_url *)
  session_get : reply ();              (* driver.get(session_url) *)
  session_sleep : reply ();            (* time.sleep(2) *)
  cycles : list cycle;
  quit : reply ()                      (* driver.quit() *)
}.

(** ** The methods of [SessionKeeper] *)

Definition _load_config (config_file : string) (env : environment) : M json :=
  emit (Enter m_load_config);;
  try_except
    (config ← call (OpenJson config_file) (config_json env);
     logger INFO "Configuración cargada desde {config_file}";;
     mret config)
    (fun e =>
       if is_FileNotFoundError e then Some (
         logger ERROR "Archivo de configuración {config_file} no encontrado";;
         raise (SystemExit 1))
       else if is_JSONDecodeError e then Some (
         logger ERROR "Error al parsear JSON: {e}";;
         raise (SystemExit 1))
       else None).

Definition __init__ (config_file : string) (env : environment) : M json :=
  config ← _load_config config_file env;
  set_driver None;;
  set_is_logged_in false;;
  mret config.

Definition _setup_driver (config : json) (env : environment) : M () :=
  emit (Enter m_setup_driver);;
  try_except
    (session_settings ← lift (subscript config "session_settings");
     headless ← lift (py_get session_settings "headless" (JBool false));
     options ←
       (if truthy headless then
          logger INFO "Modo headless activado (navegador oculto)";;
          mret ["--headless"; "--disable-gpu"]
        else
          logger INFO "Modo visible activado (navegador visible)";;
          mret []);
     let options :=
       options ++ ["--disable-blink-features=AutomationControlled";
                   "--start-maximized"] in
     d ← call (Chrome options) (chrome env);
     set_driver (Some d);;
     logger INFO "Driver de Selenium configurado correctamente")
    (fun e =>
       if is_WebDriverException e then Some (
         logger ERROR "Error al configurar el driver: {e}";;
         logger INFO "Asegúrate de tener ChromeDriver instalado";;
         raise (SystemExit 1))
       else None).

(** Lines 113 to 151 of [login]: the search for the submit control.  It
    yields the control, or raises the [Exception] of line 151. *)
Definition locate_submit_button (form_fields : json) (env : environment)
  : M element :=
  submit_xpath ← lift (py_get form_fields "submit_button" (JStr EmptyString));
  submit_button ←
    try_except
      (if truthy submit_xpath then
         b ← driver_call (FindElement By_XPATH submit_xpath) (submit_configured env);
         logger INFO "Botón encontrado usando XPath proporcionado";;
         mret (Some b)
       else mret None)
      (except_Exception (
         logger WARNING "No se encontró el botón con el XPath proporcionado, intentando alternativas...";;
         mret None));
  submit_button ←
    match submit_button with
    | Some _ => mret submit_button
    | None =>
        try_except
          (b ← driver_call (FindElement By_ID (JStr "loginbtn")) (submit_loginbtn env);
           logger INFO "Botón encontrado por ID 'loginbtn'";;
           mret (Some b))
          (except_Exception (mret None))
    end;
  submit_button ←
    match submit_button with
    | Some _ => mret submit_button
    | None =>
        try_except
          (b ← driver_call (FindElement By_XPATH (JStr "//button[@type='submit']"))
                 (submit_button_tag env);
           logger INFO "Botón encontrado por tipo submit";;
           mret (Some b))
          (except_Exception (mret None))
    end;
  submit_button ←
    match submit_button with
    | Some _ => mret submit_button
    | None =>
        try_except
          (b ← driver_call (FindElement By_XPATH (JStr "//input[@type='submit']"))
                 (submit_input_tag env);
           logger INFO "Botón encontrado por input submit";;
           mret (Some b))
          (except_Exception (mret None))
    end;
  match submit_button with
  | Some b => mret b
  | None => raise (Exception "No se pudo localizar el botón de submit con ningún método")
  end.

Definition login (config : json) (env : environment) : M bool :=
  emit (Enter m_login);;
  login_url ← lift (subscript config "login_url");
  credentials ← lift (subscript config "credentials");
  form_fields ← lift (subscript config "form_fields");
  session_settings ← lift (subscript config "session_settings");
  timeout ← lift (subscript session_settings "timeout");
  logger INFO "Intentando hacer login en {login_url}";;
  try_except
    (driver_call (DriverGet login_url) (login_get env);;
     name ← lift (subscript form_fields "username_field");
     username_field ← driver_call (WaitPresence By_NAME name timeout) (username_wait env);
     call (ElemClear username_field) (username_clear env);;
     username ← lift (subscript credentials "username");
     call (ElemSendKeys username_field username) (username_send_keys env);;
     logger INFO "Campo de usuario rellenado";;
     name ← lift (subscript form_fields "password_field");
     password_field ← driver_call (FindElement By_NAME name) (password_find env);
     call (ElemClear password_field) (password_clear env);;
     password ← lift (subscript credentials "password");
     call (ElemSendKeys password_field password) (password_send_keys env);;
     logger INFO "Campo de contraseña rellenado";;
     submit_button ← locate_submit_button form_fields env;
     call (ElemClick submit_button) (submit_click env);;
     logger INFO "Formulario enviado";;
     call (Sleep (JInt 3)) (login_sleep env);;
     current_url ← driver_call CurrentUrl (current_url env);
     if py_ne current_url login_url then
       set_is_logged_in true;;
       logger INFO "Login exitoso";;
       mret true
     else
       logger ERROR "Login fallido - seguimos en la página de login";;
       mret false)
    (fun e =>
       if is_TimeoutException e then Some (
         logger ERROR "Timeout al esperar elementos del formulario (timeout: {timeout}s)";;
         mret false)
       else if is_Exception e then Some (
         logger ERROR "Error durante el login: {e}";;
         mret false)
       else None).

Definition navigate_to_session_url (config : json) (env : environment) : M bool :=
  emit (Enter m_navigate_to_session_url);;
  session_url ← lift (subscript config "session_url");
  try_except
    (logger INFO "Navegando a {session_url}";;
     driver_call (DriverGet session_url) (session_get env);;
     call (Sleep (JInt 2)) (session_sleep env);;
     mret true)
    (except_Exception (
       logger ERROR "Error al navegar a la URL de sesión: {e}";;
       mret false)).

Definition refresh_page (c : cycle) : M bool :=
  emit (Enter m_refresh_page);;
  try_except
    (logger INFO "Refrescando página...";;
     driver_call DriverRefresh (refresh_reply c);;
     logger INFO "Página refrescada - {datetime.now().strftime('%Y-%m-%d %H:%M:%S')}";;
     mret true)
    (except_Exception (
       logger ERROR "Error al refrescar la página: {e}";;
       mret false)).

(** The [while True] of [keep_session_alive], one turn per observed cycle. *)
Fixpoint while_True (refresh_interval max_retries : json) (retry_count : Z)
    (cs : list cycle) : M bool :=
  match cs with
  | [] => running
  | c :: cs =>
      call (Sleep refresh_interval) (sleep_reply c);;
      ok ← refresh_page c;
      if ok : bool then
        while_True refresh_interval max_retries 0 cs
      else
        let retry_count := retry_count + 1 in
        logger WARNING "Fallo al refrescar ({retry_count}/{max_retries})";;
        exhausted ← lift (py_ge retry_count max_retries);
        if exhausted : bool then
          logger ERROR "Máximo de reintentos alcanzado";;
          mret false
        else
          while_True refresh_interval max_retries retry_count cs
  end.

Definition keep_session_alive (config : json) (cs : list cycle) : M bool :=
  emit (Enter m_keep_session_alive);;
  session_settings ← lift (subscript config "session_settings");
  refresh_interval ← lift (subscript session_settings "refresh_interval");
  session_settings ← lift (subscript config "session_settings");
  max_retries ← lift (subscript session_settings "max_retries");
  logger INFO "Manteniendo sesión activa (intervalo de refresco: {refresh_interval}s)";;
  try_except
    (while_True refresh_interval max_retries 0 cs)
    (fun e =>
       if is_KeyboardInterrupt e then Some (
         logger INFO "Sesión interrumpida por el usuario";;
         mret true)
       else None).

Definition cleanup (env : environment) : M () :=
  emit (Enter m_cleanup);;
  d ← get_driver;
  match d return M () with
  | Some _ =>
      logger INFO "Cerrando navegador...";;
      call DriverQuit (quit env);;
      logger INFO "Navegador cerrado"
  | None => mret ()
  end.

(** The [try] block of [run], lines 229 to 245. *)
Definition run_try (config : json) (env : environment) : M bool :=
  _setup_driver config env;;
  ok ← login config env;
  if negb ok then
    logger ERROR "No se pudo completar el login";;
    mret false
  else
    ok ← navigate_to_session_url config env;
    if negb ok then
      logger ERROR "No se pudo navegar a la URL de sesión";;
      mret false
    else
      keep_session_alive config (cycles env);;
      mret true.

Definition run (config : json) (env : environment) : M bool :=
  emit (Enter m_run);;
  try_finally (run_try config env) (cleanup env).

Definition main (env : environment) : M () :=
  emit (Enter m_main);;
  logger INFO "=== Session Keeper iniciado ===";;
  config ← __init__ "config.json" env;
  run config env;;
  logger INFO "=== Session Keeper finalizado ===".

(** ** The process *)

(** The interpreter starts with no [SessionKeeper] yet. *)
Definition start : world := World None false [] [].

(** The status the operating system sees: 0 when [main] returns, the code
    of a [SystemExit], 130 for an uncaught [KeyboardInterrupt] and 1 for any
    other uncaught exception; none while the script is running. *)
Definition exit_code (r : result ()) : option Z :=
  match r with
  | Ok _ => Some 0
  | Raise (SystemExit code) => Some code
  | Raise KeyboardInterrupt => Some 130
  | Raise _ => Some 1
  | Running => None
  end.

Definition process (env : environment) : option Z * world :=
  let (r, w) := main env start in (exit_code r, w).

(** ** Observations on a trace *)

Definition method_eqb (m m' : method) : bool :=
  match m, m' with
  | m_load_config, m_load_config
  | m_setup_driver, m_setup_driver
  | m_login, m_login
  | m_navigate_to_session_url, m_navigate_to_session_url
  | m_refresh_page, m_refresh_page
  | m_keep_session_alive, m_keep_session_alive
  | m_run, m_run
  | m_cleanup, m_cleanup
  | m_main, m_main => true
  | _, _ => false
  end.

Definition is_enter (m : method) (e : event) : bool :=
  match e with Enter m' => method_eqb m m' | _ => false end.

Definition is_refresh (e : event) : bool :=
  match e with DriverRefresh => true | _ => false end.

Definition is_quit (e : event) : bool :=
  match e with DriverQuit => true | _ => false end.

Definition is_sleep (e : event) : bool :=
  match e with Sleep _ => true | _ => false end.

(** Calls that reach the browser: launching it and every call on the driver
    or on an element. *)
Definition is_browser (e : event) : bool :=
  match e with
  | Enter _ | OpenJson _ | Sleep _ => false
  | _ => true
  end.

(** How many events of a kind the trace of [w] holds. *)
Definition count_events (p : event -> bool) (w : world) : nat :=
  length (List.filter p (trace w)).

(** ** The keepalive loop against a sequence of refresh outcomes *)

(** The refresh of this turn succeeded. *)
Definition refreshed (c : cycle) : bool :=
  match refresh_reply c with Returns _ => true | Raises _ => false end.

(** Nothing interrupts this turn: the sleep returns and the refresh returns
    or fails with an [Exception]. *)
Definition uninterrupted (c : cycle) : bool :=
  match sleep_reply c, refresh_reply c with
  | Returns _, Returns _ => true
  | Returns _, Raises e => is_Exception e
  | Raises _, _ => false
  end.

(** [l], a list of refresh outcomes, ends with [n] failures in a row. *)
Definition streak_ends (n : nat) (l : list bool) : Prop :=
  replicate n false `suffix_of` l.

(** The first [k] outcomes of [l] are the shortest prefix of [l] that ends
    with [n] failures in a row. *)
Definition first_streak (n : nat) (l : list bool) (k : nat) : Prop :=
  (k <= length l)%nat /\ streak_ends n (take k l) /\
  forall j, (j < k)%nat -> ~ streak_ends n (take j l).

(** The keepalive phase returns failure after exactly [k] refresh attempts
    precisely when the first streak of [n] failed refreshes ends at attempt
    [k]. *)
Definition fails_on_streak (n : nat) (config : json) (cs : list cycle)
    (w : world) : Prop :=
  forall k,
    (fst (keep_session_alive config cs w) = Ok false /\
     count_events is_refresh (snd (keep_session_alive config cs w))
       = (count_events is_refresh w + k)%nat)
    <-> first_streak n (map refreshed cs) k.

(** ** Sample inputs *)

Definition sample_settings (max_retries : json) : json :=
  JDict (list_to_map
    [("headless", JBool true); ("timeout", JInt 10);
     ("refresh_interval", JInt 300); ("max_retries", max_retries)]).

(** A configuration with every key the script reads. *)
Definition sample_config (max_retries : json) : json :=
  JDict (list_to_map
    [("login_url", JStr "https://example.org/login");
     ("session_url", JStr "https://example.org/home");
     ("credentials",
       JDict (list_to_map [("username", JStr "u"); ("password", JStr "p")]));
     ("form_fields",
       JDict (list_to_map
         [("username_field", JStr "user"); ("password_field", JStr "pass");
          ("submit_button", JStr "//form//button")]));
     ("session_settings", sample_settings max_retries)]).

(** A turn of the loop whose sleep returns and whose refresh succeeds or
    fails as told. *)
Definition refresh_cycle (ok : bool) : cycle :=
  Cycle (Returns ()) (if ok then Returns () else Raises WebDriverException).

(** A turn of the loop whose sleep is cut short by Ctrl-C. *)
Definition interrupted_cycle : cycle :=
  Cycle (Raises KeyboardInterrupt) (Returns ()).

(** A browser in which every call succeeds but the four searches for the
    submit control, which answer [a], [b], [c] and [d]; the login leads to
    [landing] and the configuration file holds [config]. *)
Definition fake_browser (a b c d : reply element) (config : reply json)
    (landing : string) (cs : list cycle) : environment :=
  {| config_json := config;
     chrome := Returns ChromeDriver;
     login_get := Returns ();
     username_wait := Returns (Element 1);
     username_clear := Returns ();
     username_send_keys := Returns ();
     password_find := Returns (Element 2);
     password_clear := Returns ();
     password_send_keys := Returns ();
     submit_configured := a;
     submit_loginbtn := b;
     submit_button_tag := c;
     submit_input_tag := d;
     submit_click := Returns ();
     login_sleep := Returns ();
     current_url := Returns landing;
     session_get := Returns ();
     session_sleep := Returns ();
     cycles := cs;
     quit := Returns () |}.

(** A browser in which every call succeeds. *)
Definition fake : reply json -> string -> list cycle -> environment :=
  fake_browser (Returns (Element 3)) (Returns (Element 4))
    (Returns (Element 5)) (Returns (Element 6)).

(** A page without any submit control. *)
Definition fake_without_submit : reply json -> string -> list cycle -> environment :=
  fake_browser (Raises NoSuchElementException) (Raises NoSuchElementException)
    (Raises NoSuchElementException) (Raises NoSuchElementException).

(** The object once [_setup_driver] has run. *)
Definition with_driver : world := World (Some ChromeDriver) false [] [].

(** ** The submit control, as the specification words it *)

(** The diagnostic of a search that found nothing. *)
Definition SubmitControlNotFound : exn :=
  Exception "No se pudo localizar el botón de submit con ningún método".

Definition non_empty (s : string) : bool :=
  match s with EmptyString => false | _ => true end.

(** The locators to try, in order, each with what the browser answers:
    (a) the configured locator as an XPath if it is not empty, (b) the id
    [loginbtn], (c) a [button] of type submit, (d) an [input] of type
    submit. *)
Definition fallback_chain (submit_xpath : string) (env : environment)
  : list (event * reply element) :=
  (if non_empty submit_xpath
   then [(FindElement By_XPATH (JStr submit_xpath), submit_configured env)]
   else [])
  ++ [(FindElement By_ID (JStr "loginbtn"), submit_loginbtn env);
      (FindElement By_XPATH (JStr "//button[@type='submit']"), submit_button_tag env);
      (FindElement By_XPATH (JStr "//input[@type='submit']"), submit_input_tag env)].

(** Try the locators in order and stop at the first success; a locator
    fails by raising an [Exception].  The result comes with the calls made. *)
Fixpoint first_success (chain : list (event * reply element))
  : result element * list event :=
  match chain with
  | [] => (Raise SubmitControlNotFound, [])
  | (ev, Returns el) :: _ => (Ok el, [ev])
  | (ev, Raises e) :: chain =>
      if is_Exception e then
        let (r, tried) := first_success chain in (r, ev :: tried)
      else (Raise e, [ev])
  end.

(** The locator did not find its element. *)
Definition locator_fails (attempt : event * reply element) : bool :=
  match snd attempt with
  | Returns _ => false
  | Raises e => is_Exception e
  end.

(** The calls [login] makes, when each of them returns, before it looks for
    the submit control. *)
Definition form_filling (login_url timeout : json)
    (username_field username : json) (uf : element)
    (password_field password : json) (pf : element) : list event :=
  [Enter m_login; DriverGet login_url;
   WaitPresence By_NAME username_field timeout;
   ElemClear uf; ElemSendKeys uf username;
   FindElement By_NAME password_field;
   ElemClear pf; ElemSendKeys pf password].

(** ** Phases of a run *)

(** Entering one of the three phases of [run]. *)
Definition is_phase (e : event) : bool :=
  match e with
  | Enter m_login | Enter m_navigate_to_session_url | Enter m_keep_session_alive => true
  | _ => false
  end.

(** The events that mark the progress of [run]: entering a phase, entering
    [cleanup] and releasing the browser. *)
Definition is_marker (e : event) : bool :=
  is_phase e || is_enter m_cleanup e || is_quit e.

(** [m] leaves [self.driver] alone and adds to the trace only events that
    are not markers. *)
Definition unmarked {A} (m : M A) : Prop :=
  forall w,
    driver (snd (m w)) = driver w
    /\ exists evs,
         trace (snd (m w)) = trace w ++ evs
         /\ forallb (fun e => negb (is_marker e)) evs = true.

(** What a phase adds to the trace: its own entry, then events that are not
    markers. *)
Definition phase_of {A} (m : method) (body : M A) : Prop :=
  forall w,
    driver (snd (body w)) = driver w
    /\ exists evs,
         trace (snd (body w)) = trace w ++ Enter m :: evs
         /\ forallb (fun e => negb (is_marker e)) evs = true.

(** The phases entered so far: none, or login, or login and navigation, or
    all three, in this order. *)
Definition phases_entered (evs : list event) : Prop :=
  List.filter is_marker evs = []
  \/ List.filter is_marker evs = [Enter m_login]
  \/ List.filter is_marker evs = [Enter m_login; Enter m_navigate_to_session_url]
  \/ List.filter is_marker evs
     = [Enter m_login; Enter m_navigate_to_session_url; Enter m_keep_session_alive].

(** The world in which [main] calls [run] when the configuration file has
    been read: no driver yet, the file opened, two lines logged. *)
Definition loaded : world :=
  World None false
    [Enter m_main; Enter m_load_config; OpenJson "config.json"]
    [Entry INFO "=== Session Keeper iniciado ===";
     Entry INFO "Configuración cargada desde {config_file}"].

(** ** Required configuration keys *)

(** [v[k1][k2]...], when every step finds a dict holding the key. *)
Fixpoint lookup_path (v : json) (path : list string) : option json :=
  match path with
  | [] => Some v
  | key :: path =>
      match v with
      | JDict m =>
          match m !! key with
          | Some x => lookup_path x path
          | None => None
          end
      | _ => None
      end
  end.

(** The keys the specification lists for the configuration file, but for
    [form_fields.submit_button], which may be left out. *)
Definition required_fields : list (list string) :=
  [["login_url"]; ["session_url"];
   ["credentials"; "username"]; ["credentials"; "password"];
   ["form_fields"; "username_field"]; ["form_fields"; "password_field"];
   ["session_settings"; "headless"]; ["session_settings"; "timeout"];
   ["session_settings"; "refresh_interval"]; ["session_settings"; "max_retries"]].

Definition missing_required (config : json) : bool :=
  existsb (fun path =>
             match lookup_path config path with Some _ => false | None => true end)
    required_fields.

(** A configuration complete but for [credentials.username]. *)
Definition config_without_username : json :=
  JDict (list_to_map
    [("login_url", JStr "https://example.org/login");
     ("session_url", JStr "https://example.org/home");
     ("credentials", JDict (list_to_map [("password", JStr "p")]));
     ("form_fields",
       JDict (list_to_map
         [("username_field", JStr "user"); ("password_field", JStr "pass");
          ("submit_button", JStr "//form//button")]));
     ("session_settings", sample_settings (JInt 3))]).

(** The loader turns away every configuration that lacks a required key:
    it fails, the process ends with a status other than 0, and the browser
    has not been touched. *)
Definition rejects_missing_field (config : json) (env : environment) : Prop :=
  missing_required config = true ->
  config_json env = Returns config ->
  (exists e, fst (_load_config "config.json" env start) = Raise e)
  /\ (exists code, fst (process env) = Some code /\ code <> 0)
  /\ count_events is_browser (snd (process env)) = 0%nat.

(** A run that returns [False] shows as an exit status other than 0. *)
Definition failed_run_exits_nonzero (config : json) (env : environment) : Prop :=
  config_json env = Returns config ->
  fst (run config env loaded) = Ok false ->
  exists code, fst (process env) = Some code /\ code <> 0.

(** [env] but for what [driver.get(session_url)] does. *)
Definition with_session_get (r : reply ()) (env : environment) : environment :=
  {| config_json := config_json env;
     chrome := chrome env;
     login_get := login_get env;
     username_wait := username_wait env;
     username_clear := username_clear env;
     username_send_keys := username_send_keys env;
     password_find := password_find env;
     password_clear := password_clear env;
     password_send_keys := password_send_keys env;
     submit_configured := submit_configured env;
     submit_loginbtn := submit_loginbtn env;
     submit_button_tag := submit_button_tag env;
     submit_input_tag := submit_input_tag env;
     submit_click := submit_click env;
     login_sleep := login_sleep env;
     current_url := current_url env;
     session_get := r;
     session_sleep := session_sleep env;
     cycles := cycles env;
     quit := quit env |}.

(** The line the loader logs when it gives up on the file. *)
Definition load_error_message (e : exn) : string :=
  if is_FileNotFoundError e
  then "Archivo de configuración {config_file} no encontrado"
  else "Error al parsear JSON: {e}".


(** ** More sample environments *)

(** [env] with some of its answers replaced: the launch of Chrome, the wait
    for the username field, the pause after the click, [driver.quit()]. *)
Definition override (chrome' : option (reply handle))
    (wait' : option (reply element)) (sleep' quit' : option (reply ()))
    (env : environment) : environment :=
  {| config_json := config_json env;
     chrome := default (chrome env) chrome';
     login_get := login_get env;
     username_wait := default (username_wait env) wait';
     username_clear := username_clear env;
     username_send_keys := username_send_keys env;
     password_find := password_find env;
     password_clear := password_clear env;
     password_send_keys := password_send_keys env;
     submit_configured := submit_configured env;
     submit_loginbtn := submit_loginbtn env;
     submit_button_tag := submit_button_tag env;
     submit_input_tag := submit_input_tag env;
     submit_click := submit_click env;
     login_sleep := default (login_sleep env) sleep';
     current_url := current_url env;
     session_get := session_get env;
     session_sleep := session_sleep env;
     cycles := cycles env;
     quit := default (quit env) quit' |}.

(** The plain sample: a complete configuration, a browser that does all it
    is asked and lands on the home page. *)
Definition sample_env (cs : list cycle) : environment :=
  fake (Returns (sample_config (JInt 3))) "https://example.org/home" cs.

(** The object as [__init__] leaves it. *)
Definition without_driver : world := World None false [] [].

(** ** Predicates for the properties below *)

(** A value [int >= v] can be computed for. *)
Definition numeric (v : json) : bool :=
  match v with
  | JInt _ | JBool _ | JFloat _ => true
  | _ => false
  end.

Definition is_current_url (e : event) : bool :=
  match e with CurrentUrl => true | _ => false end.

Definition is_error (x : entry) : bool :=
  match lvl x with ERROR => true | _ => false end.

(** Ctrl-C cuts this turn short, in the sleep or in the refresh. *)
Definition interrupted (c : cycle) : Prop :=
  sleep_reply c = Raises KeyboardInterrupt
  \/ (sleep_reply c = Returns () /\ refresh_reply c = Raises KeyboardInterrupt).

(** [m] leaves [self.is_logged_in] alone. *)
Definition keeps_flag {A} (m : M A) : Prop :=
  forall w, is_logged_in (snd (m w)) = is_logged_in w.

(** [m] sets [self.is_logged_in] when it returns [True] and leaves it alone
    otherwise. *)
Definition signals_login (m : M bool) : Prop :=
  forall w,
    (fst (m w) = Ok true /\ is_logged_in (snd (m w)) = true)
    \/ (fst (m w) <> Ok true /\ is_logged_in (snd (m w)) = is_logged_in w).

(** * Proofs *)

(** Runs the monad on the world at hand. *)
Ltac exec :=
  cbv [mbind mret M_bind M_ret call driver_call emit logger lift
    raise running get_driver set_driver set_is_logged_in try_except
    try_finally except_Exception of_reply]; cbn.

(** ** The keepalive loop *)

Lemma count_events_app p w w' evs :
  trace w' = trace w ++ evs ->
  count_events p w' = (count_events p w + length (List.filter p evs))%nat.
Proof.
  unfold count_events. intros ->. by rewrite List.filter_app, length_app.
Qed.

Section Loop.
Variables (ri mr : json) (d : handle).

Lemma step_sleep_raises rc c cs w e :
  sleep_reply c = Raises e ->
  exists w', while_True ri mr rc (c :: cs) w = (Raise e, w')
    /\ driver w' = driver w /\ trace w' = trace w ++ [Sleep ri].
Proof.
  intros Hs. eexists. split; [|split].
  - cbn [while_True]. rewrite Hs. exec. reflexivity.
  - done.
  - done.
Qed.

Lemma step_success rc c cs w :
  driver w = Some d -> sleep_reply c = Returns () -> refresh_reply c = Returns () ->
  exists w', while_True ri mr rc (c :: cs) w = while_True ri mr 0 cs w'
    /\ driver w' = Some d
    /\ trace w' = trace w ++ [Sleep ri; Enter m_refresh_page; DriverRefresh].
Proof.
  intros Hd Hs Hr. eexists. split; [|split].
  - cbn [while_True]. unfold refresh_page. rewrite Hs, Hr. exec.
    rewrite Hd. cbn. reflexivity.
  - done.
  - cbn. by rewrite <- !app_assoc.
Qed.

Lemma step_refresh_escapes rc c cs w e :
  driver w = Some d -> sleep_reply c = Returns () ->
  refresh_reply c = Raises e -> is_Exception e = false ->
  exists w', while_True ri mr rc (c :: cs) w = (Raise e, w')
    /\ driver w' = Some d
    /\ trace w' = trace w ++ [Sleep ri; Enter m_refresh_page; DriverRefresh].
Proof.
  intros Hd Hs Hr He. eexists. split; [|split].
  - cbn [while_True]. unfold refresh_page. rewrite Hs, Hr. exec.
    rewrite Hd. cbn. rewrite He. reflexivity.
  - done.
  - cbn. by rewrite <- !app_assoc.
Qed.

Lemma step_failure rc c cs w e :
  driver w = Some d -> sleep_reply c = Returns () ->
  refresh_reply c = Raises e -> is_Exception e = true ->
  exists w1,
    driver w1 = Some d
    /\ trace w1 = trace w ++ [Sleep ri; Enter m_refresh_page; DriverRefresh]
    /\ while_True ri mr rc (c :: cs) w =
       match py_ge (rc + 1) mr with
       | Returns true =>
           (Ok false, World (driver w1) (is_logged_in w1) (trace w1)
              (log w1 ++ [Entry ERROR "Máximo de reintentos alcanzado"]))
       | Returns false => while_True ri mr (rc + 1) cs w1
       | Raises e' => (Raise e', w1)
       end.
Proof.
  intros Hd Hs Hr He. eexists. split; [|split]; cycle 2.
  - cbn [while_True]. unfold refresh_page. rewrite Hs, Hr. exec.
    rewrite Hd. cbn. rewrite He.
    destruct (py_ge (rc + 1) mr) as [[]|]; reflexivity.
  - done.
  - cbn. by rewrite <- !app_assoc.
Qed.
End Loop.

(** *** Streaks of failures *)

Lemma streak_ends_short n c : streak_ends n (replicate c false) -> (n <= c)%nat.
Proof.
  intros H. apply suffix_length in H. by rewrite !length_replicate in H.
Qed.

Lemma replicate_snoc_app {A} (x : A) c t :
  replicate c x ++ x :: t = replicate (S c) x ++ t.
Proof. induction c as [|c IH]; cbn; [done|]. by rewrite IH. Qed.

Lemma streak_ends_after_success n pre t :
  (1 <= n)%nat -> streak_ends n (pre ++ true :: t) <-> streak_ends n t.
Proof.
  intros Hn. unfold streak_ends. destruct n as [|n]; [lia|]. split.
  - induction pre as [|x pre IH]; cbn; intros H.
    + apply suffix_cons_inv in H as [H|H]; [discriminate H|done].
    + apply suffix_cons_inv in H as [H|H]; [|by apply IH].
      assert (Hin : true ∈ replicate (S n) false).
      { cbn. rewrite H. apply elem_of_cons. right. apply elem_of_app. right. left. }
      apply elem_of_replicate in Hin as [? _]. done.
  - intros H. apply suffix_app_r. by apply suffix_cons_r.
Qed.

Lemma retry_budget_exhausted (N : Z) (c : nat) :
  (c < Z.to_nat (Z.max N 1))%nat ->
  (N <=? Z.of_nat c + 1) = true -> Z.to_nat (Z.max N 1) = S c.
Proof. intros Hc H%Z.leb_le. lia. Qed.

Lemma retry_budget_left (N : Z) (c : nat) :
  (N <=? Z.of_nat c + 1) = false -> (S c < Z.to_nat (Z.max N 1))%nat.
Proof. intros H%Z.leb_gt. lia. Qed.

Lemma uninterrupted_cases c :
  uninterrupted c = true ->
  sleep_reply c = Returns () /\
  (refresh_reply c = Returns () /\ refreshed c = true \/
   exists e, refresh_reply c = Raises e /\ is_Exception e = true /\ refreshed c = false).
Proof.
  unfold uninterrupted, refreshed.
  destruct (sleep_reply c) as [[]|]; [|done].
  destruct (refresh_reply c) as [[]|e]; intros H; split; eauto.
Qed.

Section LoopOutcomes.
Variables (ri : json) (N : Z) (d : handle).
Let M := Z.to_nat (Z.max N 1).

Lemma while_True_outcomes cs : forall (c : nat) w,
  driver w = Some d ->
  forallb uninterrupted cs = true ->
  (c < M)%nat ->
  let l := map refreshed cs in
  (exists k w',
      while_True ri (JInt N) (Z.of_nat c) cs w = (Ok false, w')
      /\ count_events is_refresh w' = (count_events is_refresh w + k)%nat
      /\ (k <= length l)%nat
      /\ streak_ends M (replicate c false ++ take k l)
      /\ forall j, (j < k)%nat -> ~ streak_ends M (replicate c false ++ take j l))
  \/ (exists w',
      while_True ri (JInt N) (Z.of_nat c) cs w = (Running, w')
      /\ count_events is_refresh w' = (count_events is_refresh w + length l)%nat
      /\ forall j, ~ streak_ends M (replicate c false ++ take j l)).
Proof.
  assert (HM : (1 <= M)%nat) by (subst M; lia).
  assert (Hshort : forall c, (c < M)%nat -> ~ streak_ends M (replicate c false ++ [])).
  { intros c Hc H. rewrite app_nil_r in H. apply streak_ends_short in H. lia. }
  induction cs as [|c0 cs IH]; intros c w Hd Hcs Hc l.
  - right. exists w. split; [done|]. split; [cbn; lia|].
    intros j. subst l. cbn. rewrite take_nil. by apply Hshort.
  - cbn in Hcs. apply andb_prop in Hcs as [Hc0 Hcs].
    apply uninterrupted_cases in Hc0 as [Hs [[Hr Hb]|(e & Hr & He & Hb)]];
      subst l; cbn [map]; rewrite Hb.
    + destruct (step_success ri (JInt N) d (Z.of_nat c) c0 cs w Hd Hs Hr)
        as (w1 & -> & Hd1 & Ht1).
      apply (count_events_app is_refresh) in Ht1. cbn in Ht1.
      pose proof (IH 0%nat w1 Hd1 Hcs ltac:(lia)) as IH0.
      cbn [replicate app] in IH0. change (Z.of_nat 0) with 0%Z in IH0.
      destruct IH0
        as [(k & w' & -> & Hn & Hk & Hend & Hmin)|(w' & -> & Hn & Hnone)].
      * left. exists (S k), w'. split; [done|]. split; [lia|].
        split; [cbn; lia|]. split.
        { cbn [take]. by apply streak_ends_after_success. }
        intros [|j] Hj; [by apply Hshort|].
        cbn [take]. rewrite streak_ends_after_success by done.
        apply (Hmin j). lia.
      * right. exists w'. split; [done|]. split; [cbn; lia|].
        intros [|j]; [by apply Hshort|].
        cbn [take]. rewrite streak_ends_after_success by done. apply (Hnone j).
    + destruct (step_failure ri (JInt N) d (Z.of_nat c) c0 cs w e Hd Hs Hr He)
        as (w1 & Hd1 & Ht1 & ->).
      apply (count_events_app is_refresh) in Ht1. cbn in Ht1.
      cbn [py_ge]. destruct (N <=? Z.of_nat c + 1) eqn:Hge.
      * left. eexists 1%nat, _. split; [done|].
        split; [unfold count_events in *; cbn; lia|].
        split; [cbn; lia|]. split.
        { cbn [take]. rewrite replicate_snoc_app, app_nil_r.
          pose proof (retry_budget_exhausted N c Hc Hge) as HMc.
          fold M in HMc. rewrite <- HMc. by unfold streak_ends. }
        intros [|j] Hj; [by apply Hshort|lia].
      * apply retry_budget_left in Hge. fold M in Hge.
        replace (Z.of_nat c + 1)%Z with (Z.of_nat (S c)) by lia.
        destruct (IH (S c) w1 Hd1 Hcs Hge)
          as [(k & w' & -> & Hn & Hk & Hend & Hmin)|(w' & -> & Hn & Hnone)].
        -- left. exists (S k), w'. split; [done|]. split; [lia|].
           split; [cbn; lia|]. split.
           { cbn [take]. by rewrite replicate_snoc_app. }
           intros [|j] Hj; [by apply Hshort|].
           cbn [take]. rewrite replicate_snoc_app. apply (Hmin j). lia.
        -- right. exists w'. split; [done|]. split; [cbn; lia|].
           intros [|j]; [by apply Hshort|].
           cbn [take]. rewrite replicate_snoc_app. apply (Hnone j).
Qed.
End LoopOutcomes.

Section KeepSessionAlive.
Variables (config session_settings refresh_interval max_retries : json).
Hypothesis Hsettings : subscript config "session_settings" = Returns session_settings.
Hypothesis Hinterval :
  subscript session_settings "refresh_interval" = Returns refresh_interval.
Hypothesis Hretries :
  subscript session_settings "max_retries" = Returns max_retries.

Lemma keep_session_alive_loop w :
  exists w0,
    driver w0 = driver w
    /\ trace w0 = trace w ++ [Enter m_keep_session_alive]
    /\ forall cs,
        keep_session_alive config cs w =
        match while_True refresh_interval max_retries 0 cs w0 with
        | (Raise e, w') =>
            if is_KeyboardInterrupt e then
              (Ok true, World (driver w') (is_logged_in w') (trace w')
                 (log w' ++ [Entry INFO "Sesión interrumpida por el usuario"]))
            else (Raise e, w')
        | rw => rw
        end.
Proof.
  exists (World (driver w) (is_logged_in w)
            (trace w ++ [Enter m_keep_session_alive])
            (log w ++ [Entry INFO "Manteniendo sesión activa (intervalo de refresco: {refresh_interval}s)"])).
  split; [|split]; cycle 2.
  - intros cs. unfold keep_session_alive. rewrite Hsettings.
    exec. rewrite Hinterval, Hretries. cbn.
    destruct (while_True _ _ _ _ _) as [[| e |] w']; [reflexivity| |reflexivity].
    destruct (is_KeyboardInterrupt e); reflexivity.
  - done.
  - done.
Qed.
End KeepSessionAlive.

(** C1 (amended): with [max_retries = N] and no interruption, the keepalive
    phase returns failure exactly at the end of the first run of [max N 1]
    failed refreshes in a row.  A failed refresh adds one to the counter, a
    successful one puts it back to 0, and the loop is left as soon as the
    counter, just incremented, is at least [N]; for [N >= 1] that is the first
    run of [N] failures, for [N <= 0] the first failure. *)
Theorem keepalive_fails_on_first_streak config ss ri (N : Z) cs w :
  driver w <> None ->
  subscript config "session_settings" = Returns ss ->
  subscript ss "refresh_interval" = Returns ri ->
  subscript ss "max_retries" = Returns (JInt N) ->
  forallb uninterrupted cs = true ->
  fails_on_streak (Z.to_nat (Z.max N 1)) config cs w.
Proof.
  intros Hd Hss Hri HN Hcs k.
  destruct (driver w) as [d|] eqn:Hdw; [clear Hd|done].
  destruct (keep_session_alive_loop config ss ri (JInt N) Hss Hri HN w)
    as (w0 & Hd0 & Ht0 & ->).
  rewrite Hdw in Hd0.
  apply (count_events_app is_refresh) in Ht0. cbn in Ht0.
  destruct (while_True_outcomes ri N d cs 0%nat w0 Hd0 Hcs ltac:(lia))
    as [(k0 & w' & Heq & Hn & Hk & Hend & Hmin)|(w' & Heq & Hn & Hnone)];
    change (Z.of_nat 0) with 0%Z in Heq; rewrite Heq; cbn [fst snd];
    cbn [replicate app] in *.
  - split.
    + intros [_ Hk']. assert (k = k0) as -> by lia. done.
    + intros (Hk' & Hend' & Hmin').
      destruct (lt_eq_lt_dec k k0) as [[Hlt| ->]|Hlt].
      * destruct (Hmin k Hlt Hend').
      * split; [done|lia].
      * destruct (Hmin' k0 Hlt Hend).
  - split.
    + intros [? _]. done.
    + intros (_ & Hend' & _). destruct (Hnone k Hend').
Qed.

Lemma keepalive_fails_on_first_streak_witness :
  fails_on_streak 3 (sample_config (JInt 3))
    (map refresh_cycle [false; false; true; false; false; false]) with_driver.
Proof.
  apply (keepalive_fails_on_first_streak (sample_config (JInt 3))
           (sample_settings (JInt 3)) (JInt 300) 3); [done|reflexivity..].
Defined.

(** With [max_retries = 0] the counter is at [N] from the start, and a
    run of 0 failures ends at attempt 0; yet the loop sleeps, refreshes, and
    after a successful refresh is still running.  (After a failed refresh it
    fails, at attempt 1.) *)
Lemma keepalive_zero_retries_counterexample :
  ~ fails_on_streak (Z.to_nat 0) (sample_config (JInt 0))
      [refresh_cycle true] with_driver.
Proof.
  intros H. destruct (H 0%nat) as [_ H0].
  destruct H0 as [Hfailed _]; [|by vm_compute in Hfailed].
  split; [cbn; lia|]. split; [by exists []|]. intros j Hj. lia.
Qed.

(** C9: with [max_retries = 3] and the refreshes failing, failing,
    succeeding and then failing three times, the keepalive phase returns
    failure after exactly 6 refresh attempts; after any shorter prefix of the
    sequence it is still running. *)
Theorem keepalive_scenario :
  let config := sample_config (JInt 3) in
  let cs := map refresh_cycle [false; false; true; false; false; false] in
  fst (keep_session_alive config cs with_driver) = Ok false
  /\ count_events is_refresh (snd (keep_session_alive config cs with_driver)) = 6%nat
  /\ Forall (fun j => fst (keep_session_alive config (take j cs) with_driver) = Running)
       (seq 0 6).
Proof.
  cbv zeta. split; [by vm_compute|]. split; [by vm_compute|].
  cbn [seq]. repeat (apply Forall_cons; split; [by vm_compute|]). apply Forall_nil_2.
Qed.

Section LoopSteps.
Variables (ri mr : json).

(** One turn either ends the loop with a result or hands over to the next
    turn; which of the two does not depend on the turns that follow. *)
Lemma while_True_turn rc c w :
  (exists r w', r <> Running /\ forall cs,
      while_True ri mr rc (c :: cs) w = (r, w'))
  \/ (exists rc' w', driver w' = driver w /\ forall cs,
      while_True ri mr rc (c :: cs) w = while_True ri mr rc' cs w').
Proof.
  cbn [while_True]. unfold refresh_page. exec.
  destruct (sleep_reply c) as [[]|e]; cbn;
    [|left; eexists _, _; split; [|reflexivity]; done].
  destruct (driver w) eqn:Hd; cbn.
  - destruct (refresh_reply c) as [[]|e]; cbn.
    + right. eexists _, _. split; [|reflexivity]. by cbn.
    + destruct (is_Exception e); cbn;
        [|left; eexists _, _; split; [|reflexivity]; done].
      destruct (py_ge (rc + 1) mr) as [[]|e']; cbn.
      * left. eexists _, _. split; [|reflexivity]. done.
      * right. eexists _, _. split; [|reflexivity]. by cbn.
      * left. eexists _, _. split; [|reflexivity]. done.
  - destruct (py_ge (rc + 1) mr) as [[]|e']; cbn.
    * left. eexists _, _. split; [|reflexivity]. done.
    * right. eexists _, _. split; [|reflexivity]. by cbn.
    * left. eexists _, _. split; [|reflexivity]. done.
Qed.

Lemma while_True_still_running pre : forall rc w,
  fst (while_True ri mr rc pre w) = Running ->
  exists rc' w', driver w' = driver w /\ forall rest,
    while_True ri mr rc (pre ++ rest) w = while_True ri mr rc' rest w'.
Proof.
  induction pre as [|c pre IH]; intros rc w Hrun.
  - by exists rc, w.
  - destruct (while_True_turn rc c w) as [(r & w' & Hr & Heq)|(rc' & w' & Hd & Heq)].
    + rewrite Heq in Hrun. done.
    + rewrite Heq in Hrun. destruct (IH rc' w' Hrun) as (rc'' & w'' & Hd' & Heq').
      exists rc'', w''. split; [congruence|]. intros rest.
      cbn [app]. by rewrite Heq, Heq'.
Qed.
End LoopSteps.

(** C4: when the loop has come through the turns [pre], whatever their
    refreshes did to the failure count, and Ctrl-C arrives during the next
    sleep, the keepalive phase returns [True]: it stops, it does not fail. *)
Theorem interrupted_sleep_stops config pre c post w :
  fst (keep_session_alive config pre w) = Running ->
  sleep_reply c = Raises KeyboardInterrupt ->
  fst (keep_session_alive config (pre ++ c :: post) w) = Ok true.
Proof.
  intros Hrun Hc.
  destruct (subscript config "session_settings") as [ss|e] eqn:Hss;
    [|revert Hrun; unfold keep_session_alive; rewrite Hss; exec; done].
  destruct (subscript ss "refresh_interval") as [ri|e] eqn:Hri;
    [|revert Hrun; unfold keep_session_alive; rewrite Hss; exec; rewrite Hri; done].
  destruct (subscript ss "max_retries") as [mr|e] eqn:Hmr;
    [|revert Hrun; unfold keep_session_alive; rewrite Hss; exec;
      rewrite Hri, Hmr; done].
  destruct (keep_session_alive_loop config ss ri mr Hss Hri Hmr w)
    as (w0 & _ & _ & Heq).
  rewrite Heq in Hrun |- *.
  assert (Hloop : fst (while_True ri mr 0 pre w0) = Running).
  { destruct (while_True ri mr 0 pre w0) as [[|e|] ?]; cbn in *; try done.
    by destruct (is_KeyboardInterrupt e). }
  destruct (while_True_still_running ri mr pre 0 w0 Hloop) as (rc & w1 & _ & ->).
  destruct (step_sleep_raises ri mr rc c post w1 _ Hc) as (w2 & -> & _).
  reflexivity.
Qed.

Lemma interrupted_sleep_stops_witness :
  fst (keep_session_alive (sample_config (JInt 3))
         (map refresh_cycle [false; false] ++ interrupted_cycle :: [refresh_cycle false])
         with_driver) = Ok true.
Proof.
  apply interrupted_sleep_stops; reflexivity.
Defined.

Lemma while_True_failed_after_failure ri mr d cs : forall rc w w',
  driver w = Some d ->
  while_True ri mr rc cs w = (Ok false, w') ->
  exists pre c post e,
    cs = pre ++ c :: post
    /\ sleep_reply c = Returns ()
    /\ refresh_reply c = Raises e /\ is_Exception e = true
    /\ count_events is_refresh w' = (count_events is_refresh w + S (length pre))%nat
    /\ count_events is_sleep w' = (count_events is_sleep w + S (length pre))%nat.
Proof.
  induction cs as [|c cs IH]; intros rc w w' Hd Hrun; [done|].
  destruct (sleep_reply c) as [[]|e] eqn:Hs.
  2:{ destruct (step_sleep_raises ri mr rc c cs w e Hs) as (w1 & Heq & _).
      rewrite Heq in Hrun. done. }
  destruct (refresh_reply c) as [[]|e] eqn:Hr.
  - destruct (step_success ri mr d rc c cs w Hd Hs Hr) as (w1 & Heq & Hd1 & Ht1).
    rewrite Heq in Hrun.
    destruct (IH _ _ _ Hd1 Hrun) as (pre & c' & post & e & -> & ? & ? & ? & Hn & Hn').
    exists (c :: pre), c', post, e. repeat split; try done.
    + apply (count_events_app is_refresh) in Ht1. cbn in *. lia.
    + apply (count_events_app is_sleep) in Ht1. cbn in *. lia.
  - destruct (is_Exception e) eqn:He.
    2:{ destruct (step_refresh_escapes ri mr d rc c cs w e Hd Hs Hr He) as (w1 & Heq & _).
        rewrite Heq in Hrun. done. }
    destruct (step_failure ri mr d rc c cs w e Hd Hs Hr He) as (w1 & Hd1 & Ht1 & Heq).
    rewrite Heq in Hrun.
    destruct (py_ge (rc + 1) mr) as [[]|e']; [| |done].
    + exists [], c, cs, e. injection Hrun as <-. repeat split; try done.
      * apply (count_events_app is_refresh) in Ht1. unfold count_events in *. cbn in *. lia.
      * apply (count_events_app is_sleep) in Ht1. unfold count_events in *. cbn in *. lia.
    + destruct (IH _ _ _ Hd1 Hrun) as (pre & c' & post & e' & -> & ? & ? & ? & Hn & Hn').
      exists (c :: pre), c', post, e'. repeat split; try done.
      * apply (count_events_app is_refresh) in Ht1. cbn in *. lia.
      * apply (count_events_app is_sleep) in Ht1. cbn in *. lia.
Qed.

(** C10: the keepalive phase returns failure only at a refresh that has
    just failed, so after at least one sleep and one refresh attempt.  With
    [max_retries = 0] it fails at the first failed refresh: it has slept once
    and tried once. *)
Theorem failure_needs_a_failed_refresh config w :
  driver w <> None ->
  (forall cs,
     fst (keep_session_alive config cs w) = Ok false ->
     exists pre c post e,
       cs = pre ++ c :: post
       /\ sleep_reply c = Returns ()
       /\ refresh_reply c = Raises e /\ is_Exception e = true
       /\ count_events is_refresh (snd (keep_session_alive config cs w))
          = (count_events is_refresh w + S (length pre))%nat
       /\ count_events is_sleep (snd (keep_session_alive config cs w))
          = (count_events is_sleep w + S (length pre))%nat)
  /\ (forall ss ri c rest e,
     subscript config "session_settings" = Returns ss ->
     subscript ss "refresh_interval" = Returns ri ->
     subscript ss "max_retries" = Returns (JInt 0) ->
     sleep_reply c = Returns () ->
     refresh_reply c = Raises e -> is_Exception e = true ->
     fst (keep_session_alive config (c :: rest) w) = Ok false
     /\ trace (snd (keep_session_alive config (c :: rest) w))
        = trace w ++ [Enter m_keep_session_alive; Sleep ri;
                      Enter m_refresh_page; DriverRefresh]).
Proof.
  intros Hd. destruct (driver w) as [d|] eqn:Hdw; [clear Hd|done]. split.
  - intros cs.
    destruct (subscript config "session_settings") as [ss|e] eqn:Hss;
      [|unfold keep_session_alive; rewrite Hss; exec; done].
    destruct (subscript ss "refresh_interval") as [ri|e] eqn:Hri;
      [|unfold keep_session_alive; rewrite Hss; exec; rewrite Hri; done].
    destruct (subscript ss "max_retries") as [mr|e] eqn:Hmr;
      [|unfold keep_session_alive; rewrite Hss; exec; rewrite Hri, Hmr; done].
    destruct (keep_session_alive_loop config ss ri mr Hss Hri Hmr w)
      as (w0 & Hd0 & Ht0 & ->).
    rewrite Hdw in Hd0.
    destruct (while_True ri mr 0 cs w0) as [[[]|e|] w'] eqn:Hloop; cbn [fst snd];
      try done; [|by destruct (is_KeyboardInterrupt e)].
    intros _.
    destruct (while_True_failed_after_failure ri mr d cs 0 w0 w' Hd0 Hloop)
      as (pre & c & post & e & -> & ? & ? & ? & Hn & Hn').
    exists pre, c, post, e. repeat split; try done.
    + apply (count_events_app is_refresh) in Ht0. cbn in *. lia.
    + apply (count_events_app is_sleep) in Ht0. cbn in *. lia.
  - intros ss ri c rest e Hss Hri Hmr Hs Hr He.
    destruct (keep_session_alive_loop config ss ri (JInt 0) Hss Hri Hmr w)
      as (w0 & Hd0 & Ht0 & ->).
    rewrite Hdw in Hd0.
    destruct (step_failure ri (JInt 0) d 0 c rest w0 e Hd0 Hs Hr He)
      as (w1 & Hd1 & Ht1 & ->).
    cbn. split; [done|]. rewrite Ht1, Ht0, <- app_assoc. done.
Qed.

Lemma failure_needs_a_failed_refresh_witness :
  (exists pre c post e,
     [refresh_cycle true; refresh_cycle false] = pre ++ c :: post
     /\ sleep_reply c = Returns ()
     /\ refresh_reply c = Raises e /\ is_Exception e = true
     /\ count_events is_refresh
          (snd (keep_session_alive (sample_config (JInt 0))
                  [refresh_cycle true; refresh_cycle false] with_driver))
        = (count_events is_refresh with_driver + S (length pre))%nat
     /\ count_events is_sleep
          (snd (keep_session_alive (sample_config (JInt 0))
                  [refresh_cycle true; refresh_cycle false] with_driver))
        = (count_events is_sleep with_driver + S (length pre))%nat)
  /\ fst (keep_session_alive (sample_config (JInt 0)) [refresh_cycle false] with_driver)
     = Ok false
  /\ trace (snd (keep_session_alive (sample_config (JInt 0)) [refresh_cycle false]
                   with_driver))
     = trace with_driver ++ [Enter m_keep_session_alive; Sleep (JInt 300);
                             Enter m_refresh_page; DriverRefresh].
Proof.
  destruct (failure_needs_a_failed_refresh (sample_config (JInt 0)) with_driver)
    as [Hany Hzero]; [done|].
  split.
  - apply Hany. reflexivity.
  - apply (Hzero (sample_settings (JInt 0)) (JInt 300) (refresh_cycle false) []
             WebDriverException); reflexivity.
Defined.

(** ** Login *)

Lemma locate_submit_button_spec form_fields xp env w d :
  driver w = Some d ->
  py_get form_fields "submit_button" (JStr EmptyString) = Returns (JStr xp) ->
  exists w',
    locate_submit_button form_fields env w
      = (fst (first_success (fallback_chain xp env)), w')
    /\ trace w' = trace w ++ snd (first_success (fallback_chain xp env))
    /\ driver w' = driver w
    /\ is_logged_in w' = is_logged_in w.
Proof.
  intros Hd Hget. unfold locate_submit_button, fallback_chain. rewrite Hget.
  exec. rewrite !Hd.
  destruct xp as [|a xp]; cbn;
    [|destruct (submit_configured env) as [?|e0]; cbn; rewrite ?Hd; cbn;
      [|destruct (is_Exception e0); cbn; rewrite ?Hd; cbn]];
    try (destruct (submit_loginbtn env) as [?|e1]; cbn; rewrite ?Hd; cbn;
      [|destruct (is_Exception e1); cbn; rewrite ?Hd; cbn;
        [destruct (submit_button_tag env) as [?|e2]; cbn; rewrite ?Hd; cbn;
          [|destruct (is_Exception e2); cbn; rewrite ?Hd; cbn;
            [destruct (submit_input_tag env) as [?|e3]; cbn; rewrite ?Hd; cbn;
              [|destruct (is_Exception e3); cbn]|]]|]]);
    (eexists; split; [reflexivity|]; cbn; rewrite <- ?app_assoc, ?app_nil_r; done).
Qed.

Lemma py_ne_true url v : py_ne url v = true <-> JStr url <> v.
Proof.
  unfold py_ne. destruct v as [| | | |s| |]; try (split; [discriminate|reflexivity]).
  destruct (String.eqb_spec url s) as [->|Hs]; cbn.
  - split; [discriminate|]. intros H. by destruct H.
  - split; [|reflexivity]. intros _ [= H]. by destruct Hs.
Qed.

Lemma py_ne_false url v : py_ne url v = false <-> JStr url = v.
Proof.
  unfold py_ne. destruct v as [| | | |s| |]; try (split; discriminate).
  destruct (String.eqb_spec url s) as [->|Hs]; cbn.
  - split; reflexivity.
  - split; [discriminate|]. intros [= H]. by destruct Hs.
Qed.

Section LoginForm.
Variables (config login_url credentials form_fields session_settings : json).
Variables (timeout username_field password_field username password : json).
Variables (submit_xpath : string) (env : environment) (uf pf : element).

(** The configuration holds what [login] reads. *)
Hypothesis Hlogin_url : subscript config "login_url" = Returns login_url.
Hypothesis Hcredentials : subscript config "credentials" = Returns credentials.
Hypothesis Hform_fields : subscript config "form_fields" = Returns form_fields.
Hypothesis Hsession_settings :
  subscript config "session_settings" = Returns session_settings.
Hypothesis Htimeout : subscript session_settings "timeout" = Returns timeout.
Hypothesis Husername_field :
  subscript form_fields "username_field" = Returns username_field.
Hypothesis Hpassword_field :
  subscript form_fields "password_field" = Returns password_field.
Hypothesis Husername : subscript credentials "username" = Returns username.
Hypothesis Hpassword : subscript credentials "password" = Returns password.
Hypothesis Hsubmit_xpath :
  py_get form_fields "submit_button" (JStr EmptyString) = Returns (JStr submit_xpath).

(** The browser reaches the login page and both fields get filled. *)
Hypothesis Hget : login_get env = Returns ().
Hypothesis Hwait : username_wait env = Returns uf.
Hypothesis Huclear : username_clear env = Returns ().
Hypothesis Hukeys : username_send_keys env = Returns ().
Hypothesis Hpfind : password_find env = Returns pf.
Hypothesis Hpclear : password_clear env = Returns ().
Hypothesis Hpkeys : password_send_keys env = Returns ().

Ltac fill_form Hd :=
  unfold login;
  rewrite ?Hget, ?Hwait, ?Huclear, ?Hukeys, ?Hpfind, ?Hpclear, ?Hpkeys,
    ?Hlogin_url, ?Hcredentials, ?Hform_fields, ?Hsession_settings;
  exec;
  repeat (progress (rewrite ?Hd, ?Htimeout, ?Husername_field, ?Hpassword_field,
                      ?Husername, ?Hpassword; cbn)).

Lemma first_success_all_fail chain :
  forallb locator_fails chain = true ->
  first_success chain = (Raise SubmitControlNotFound, map fst chain).
Proof.
  induction chain as [|[ev [el|e]] chain IH]; cbn; [done|done|].
  unfold locator_fails at 1. cbn. intros [He Hrest]%andb_prop.
  by rewrite He, (IH Hrest).
Qed.

(** C2: once the form is filled, [login] looks for the submit control with
    the configured XPath if it is not empty, then the id [loginbtn], then a
    submit [button], then a submit [input], in this order and only until one
    of them answers; the control it clicks is that first answer.  When every
    locator fails, [login] returns [False] and raises nothing. *)
Theorem submit_control_fallback w :
  driver w <> None ->
  (exists rest,
     trace (snd (login config env w))
       = trace w ++ form_filling login_url timeout username_field username uf
                     password_field password pf
           ++ snd (first_success (fallback_chain submit_xpath env)) ++ rest
     /\ match fst (first_success (fallback_chain submit_xpath env)) with
        | Ok el => head rest = Some (ElemClick el)
        | _ => rest = []
        end)
  /\ (forallb locator_fails (fallback_chain submit_xpath env) = true ->
      fst (login config env w) = Ok false
      /\ snd (first_success (fallback_chain submit_xpath env))
         = map fst (fallback_chain submit_xpath env)).
Proof.
  intros Hd. destruct (driver w) as [d|] eqn:Hdw; [clear Hd|done].
  fill_form Hdw.
  match goal with |- context [locate_submit_button ?f ?e ?w0] =>
    destruct (locate_submit_button_spec f submit_xpath e w0 d)
      as (w1 & -> & Ht & Hd1 & Hl); [done|done|]
  end.
  cbn in Ht, Hd1. split.
  - destruct (first_success (fallback_chain submit_xpath env)) as [[el|e|] tried];
      cbn [fst snd].
    + rewrite Hd1. cbn.
      destruct (submit_click env) as [[]|e1]; cbn;
        [destruct (login_sleep env) as [[]|e2]; cbn;
          [destruct (current_url env) as [url|e3]; cbn;
            [destruct (py_ne url login_url); cbn|]|]|];
        try match goal with |- context [is_TimeoutException ?e] =>
              destruct (is_TimeoutException e); cbn;
                [|destruct (is_Exception e); cbn]
            end;
        (eexists; split; [rewrite Ht, <- !app_assoc; cbn; reflexivity|done]).
    + destruct (is_TimeoutException e); cbn; [|destruct (is_Exception e); cbn];
        (exists []; split; [rewrite Ht, <- !app_assoc, ?app_nil_r; cbn; reflexivity|done]).
    + exists []. split; [rewrite Ht, <- !app_assoc, ?app_nil_r; cbn; reflexivity|done].
  - intros Hfail. rewrite (first_success_all_fail _ Hfail). done.
Qed.

(** C3: when the login page opens, both fields are filled, a submit control
    is found and clicked and the three-second pause passes, [login] returns
    [True] exactly when the URL the browser then reports differs from
    [login_url], whatever that URL is; it returns [False] exactly when the two
    are equal.  [is_logged_in] is set on success. *)
Theorem login_true_iff_url_changed w sb url :
  driver w <> None ->
  fst (first_success (fallback_chain submit_xpath env)) = Ok sb ->
  submit_click env = Returns () ->
  login_sleep env = Returns () ->
  current_url env = Returns url ->
  (fst (login config env w) = Ok true <-> JStr url <> login_url)
  /\ (fst (login config env w) = Ok false <-> JStr url = login_url)
  /\ (JStr url <> login_url -> is_logged_in (snd (login config env w)) = true)
  /\ exists before,
       trace (snd (login config env w))
         = before ++ [ElemClick sb; Sleep (JInt 3); CurrentUrl].
Proof.
  intros Hd Hfound Hclick Hsleep Hurl.
  destruct (driver w) as [d|] eqn:Hdw; [clear Hd|done].
  fill_form Hdw.
  match goal with |- context [locate_submit_button ?f ?e ?w0] =>
    destruct (locate_submit_button_spec f submit_xpath e w0 d)
      as (w1 & -> & Ht & Hd1 & Hl); [done|done|]
  end.
  rewrite Hfound, Hclick, Hsleep. cbn. rewrite Hd1, Hurl. cbn.
  destruct (py_ne url login_url) eqn:Hp; cbn.
  - apply py_ne_true in Hp. split; [|split; [|split]].
    + split; [by intros _|reflexivity].
    + split; [discriminate|]. intros Heq. by destruct Hp.
    + reflexivity.
    + exists (trace w1). by rewrite <- !app_assoc.
  - apply py_ne_false in Hp. split; [|split; [|split]].
    + split; [discriminate|]. intros Hn. by destruct Hn.
    + split; [by intros _|reflexivity].
    + intros Hn. by destruct Hn.
    + exists (trace w1). by rewrite <- !app_assoc.
Qed.
End LoginForm.

Lemma submit_control_fallback_witness :
  let env := fake_without_submit (Returns (sample_config (JInt 3)))
               "https://example.org/login" [] in
  fst (login (sample_config (JInt 3)) env with_driver) = Ok false
  /\ snd (first_success (fallback_chain "//form//button" env))
     = [FindElement By_XPATH (JStr "//form//button");
        FindElement By_ID (JStr "loginbtn");
        FindElement By_XPATH (JStr "//button[@type='submit']");
        FindElement By_XPATH (JStr "//input[@type='submit']")].
Proof.
  intros env.
  eapply (submit_control_fallback (sample_config (JInt 3)) _ _ _ _ _ _ _ _ _
            "//form//button" env); try reflexivity; done.
Defined.

Lemma login_true_iff_url_changed_witness :
  let env := fake (Returns (sample_config (JInt 3))) "https://example.org/home" [] in
  (fst (login (sample_config (JInt 3)) env with_driver) = Ok true
   <-> JStr "https://example.org/home" <> JStr "https://example.org/login")
  /\ (fst (login (sample_config (JInt 3)) env with_driver) = Ok false
      <-> JStr "https://example.org/home" = JStr "https://example.org/login")
  /\ (JStr "https://example.org/home" <> JStr "https://example.org/login" ->
      is_logged_in (snd (login (sample_config (JInt 3)) env with_driver)) = true)
  /\ exists before,
       trace (snd (login (sample_config (JInt 3)) env with_driver))
         = before ++ [ElemClick (Element 3); Sleep (JInt 3); CurrentUrl].
Proof.
  intros env.
  eapply (login_true_iff_url_changed (sample_config (JInt 3)) _ _ _ _ _ _ _ _ _
            "//form//button" env); try reflexivity; done.
Defined.

(** With no locator configured and an element with id [loginbtn] on the
    page, the control is found by the second locator and the search stops
    there. *)
Example submit_found_by_id :
  first_success
    (fallback_chain EmptyString
       (fake (Returns (sample_config (JInt 3))) "https://example.org/home" []))
  = (Ok (Element 4), [FindElement By_ID (JStr "loginbtn")]).
Proof. reflexivity. Qed.

(** ** The orchestrator *)

Section Unmarked.
Context {A B : Type}.

Lemma unmarked_ret (a : A) : unmarked (mret a).
Proof. intros w. split; [done|]. exists []. by rewrite app_nil_r. Qed.

Lemma unmarked_raise e : unmarked (raise e : M A).
Proof. intros w. split; [done|]. exists []. by rewrite app_nil_r. Qed.

Lemma unmarked_lift (r : reply A) : unmarked (lift r).
Proof. intros w. split; [done|]. exists []. by rewrite app_nil_r. Qed.

Lemma unmarked_running : unmarked (running : M A).
Proof. intros w. split; [done|]. exists []. by rewrite app_nil_r. Qed.

Lemma unmarked_bind (m : M A) (k : A -> M B) :
  unmarked m -> (forall a, unmarked (k a)) -> unmarked (m ≫= k).
Proof.
  intros Hm Hk w. unfold mbind, M_bind.
  destruct (Hm w) as (Hd & evs & Ht & Hevs).
  destruct (m w) as [[a|e|] w1]; cbn in *; [|split; eauto..].
  destruct (Hk a w1) as (Hd' & evs' & Ht' & Hevs'). split; [congruence|].
  exists (evs ++ evs'). rewrite Ht', Ht, app_assoc, forallb_app, Hevs, Hevs'. done.
Qed.

Lemma unmarked_try_except (m : M A) handler :
  unmarked m ->
  (forall e, match handler e with Some h => unmarked h | None => True end) ->
  unmarked (try_except m handler).
Proof.
  intros Hm Hh w. unfold try_except.
  destruct (Hm w) as (Hd & evs & Ht & Hevs).
  destruct (m w) as [[a|e|] w1]; cbn in *; [split; eauto| |split; eauto].
  specialize (Hh e). destruct (handler e) as [h|]; [|split; eauto].
  destruct (Hh w1) as (Hd' & evs' & Ht' & Hevs'). split; [congruence|].
  exists (evs ++ evs'). rewrite Ht', Ht, app_assoc, forallb_app, Hevs, Hevs'. done.
Qed.
End Unmarked.

Lemma unmarked_logger l msg : unmarked (logger l msg).
Proof. intros w. split; [done|]. exists []. by rewrite app_nil_r. Qed.

Lemma unmarked_set_is_logged_in b : unmarked (set_is_logged_in b).
Proof. intros w. split; [done|]. exists []. by rewrite app_nil_r. Qed.

Lemma unmarked_emit e : is_marker e = false -> unmarked (emit e).
Proof. intros He w. split; [done|]. exists [e]. cbn. by rewrite He. Qed.

Lemma unmarked_call {A} e (r : reply A) : is_marker e = false -> unmarked (call e r).
Proof.
  intros He. apply unmarked_bind; [by apply unmarked_emit|].
  intros _. apply unmarked_lift.
Qed.

Lemma unmarked_driver_call {A} e (r : reply A) :
  is_marker e = false -> unmarked (driver_call e r).
Proof.
  intros He w. unfold driver_call. exec.
  destruct (driver w) eqn:Hd; cbn; [|split; [done|]; exists []; by rewrite app_nil_r].
  destruct r; cbn; (split; [done|]; exists [e]; cbn; by rewrite He).
Qed.

(** Breaks a method body down to its calls. *)
Ltac solve_unmarked :=
  repeat first
    [ apply unmarked_ret | apply unmarked_raise | apply unmarked_lift
    | apply unmarked_running | apply unmarked_logger
    | apply unmarked_set_is_logged_in
    | apply unmarked_emit; reflexivity
    | apply unmarked_call; reflexivity
    | apply unmarked_driver_call; reflexivity
    | apply unmarked_bind; [|intros ?]
    | apply unmarked_try_except; [|intros ?; unfold except_Exception]
    | exact I
    | match goal with
      | |- unmarked (if ?b then _ else _) => destruct b
      | |- unmarked (match ?x with _ => _ end) => destruct x
      | |- match (if ?b then _ else _) with _ => _ end => destruct b
      end ].

Lemma unmarked_locate_submit_button form_fields env :
  unmarked (locate_submit_button form_fields env).
Proof. unfold locate_submit_button. solve_unmarked. Qed.

Lemma unmarked_refresh_page c : unmarked (refresh_page c).
Proof. unfold refresh_page. solve_unmarked. Qed.

Lemma unmarked_while_True ri mr cs : forall rc, unmarked (while_True ri mr rc cs).
Proof.
  induction cs as [|c cs IH]; intros rc; cbn [while_True]; [solve_unmarked|].
  pose proof (unmarked_refresh_page c). solve_unmarked; try done; apply IH.
Qed.

Lemma phase_of_intro {A} m (rest : M A) :
  unmarked rest -> phase_of m (emit (Enter m);; rest).
Proof.
  intros Hrest w. unfold mbind, M_bind. cbn.
  destruct (Hrest (World (driver w) (is_logged_in w) (trace w ++ [Enter m]) (log w)))
    as (Hd & evs & Ht & Hevs). cbn in *.
  split; [done|]. exists evs. by rewrite Ht, <- app_assoc.
Qed.

Lemma login_phase config env : phase_of m_login (login config env).
Proof.
  apply phase_of_intro. pose proof (unmarked_locate_submit_button). solve_unmarked; done.
Qed.

Lemma navigate_phase config env :
  phase_of m_navigate_to_session_url (navigate_to_session_url config env).
Proof. apply phase_of_intro. solve_unmarked. Qed.

Lemma keep_session_alive_phase config cs :
  phase_of m_keep_session_alive (keep_session_alive config cs).
Proof.
  apply phase_of_intro. pose proof (unmarked_while_True). solve_unmarked; done.
Qed.

Lemma filter_unmarked evs :
  forallb (fun e => negb (is_marker e)) evs = true -> List.filter is_marker evs = [].
Proof.
  induction evs as [|e evs IH]; cbn; [done|].
  intros [He Hevs]%andb_prop. destruct (is_marker e); [done|]. by apply IH.
Qed.

Lemma filter_markers (p : event -> bool) evs :
  (forall e, p e = true -> is_marker e = true) ->
  List.filter p evs = List.filter p (List.filter is_marker evs).
Proof.
  intros Hp. induction evs as [|e evs IH]; cbn; [done|].
  destruct (p e) eqn:He.
  - rewrite (Hp e He). cbn. by rewrite He, IH.
  - destruct (is_marker e); cbn; by rewrite ?He, IH.
Qed.

Lemma setup_driver_spec config env w :
  (exists evs,
     trace (snd (_setup_driver config env w)) = trace w ++ evs
     /\ forallb (fun e => negb (is_marker e)) evs = true)
  /\ match fst (_setup_driver config env w) with
     | Ok _ => driver (snd (_setup_driver config env w)) <> None
     | _ => driver (snd (_setup_driver config env w)) = driver w
     end.
Proof.
  unfold _setup_driver. exec.
  destruct (subscript config "session_settings") as [ss|e]; cbn;
    [destruct (py_get ss "headless" (JBool false)) as [h|e]; cbn;
      [destruct (truthy h); cbn; destruct (chrome env) as [d|e]; cbn|]|];
    try destruct (is_WebDriverException e); cbn; rewrite <- ?app_assoc;
    (split; [eexists; split; reflexivity|done]).
Qed.

Lemma setup_driver_outcome config env w w' :
  fst (_setup_driver config env w) = fst (_setup_driver config env w').
Proof.
  unfold _setup_driver. exec.
  destruct (subscript config "session_settings") as [ss|e]; cbn;
    [destruct (py_get ss "headless" (JBool false)) as [h|e]; cbn;
      [destruct (truthy h); cbn; destruct (chrome env) as [d|e]; cbn|]|];
    try destruct (is_WebDriverException e); reflexivity.
Qed.

Lemma cleanup_spec env w :
  fst (cleanup env w) <> Running
  /\ driver (snd (cleanup env w)) = driver w
  /\ trace (snd (cleanup env w))
     = trace w ++ Enter m_cleanup
         :: match driver w with Some _ => [DriverQuit] | None => [] end.
Proof.
  unfold cleanup. exec. destruct (driver w) eqn:Hd; cbn; [|done].
  destruct (quit env) as [[]|e]; cbn; rewrite <- ?app_assoc; done.
Qed.

(** The [try] block of [run] enters the phases in order and stops at the
    first that does not return [True]; nothing in it releases the browser. *)
Lemma run_try_spec config env w :
  exists evs,
    trace (snd (run_try config env w)) = trace w ++ evs
    /\ (List.filter is_marker evs = []
        \/ List.filter is_marker evs = [Enter m_login]
        \/ List.filter is_marker evs
           = [Enter m_login; Enter m_navigate_to_session_url]
        \/ List.filter is_marker evs
           = [Enter m_login; Enter m_navigate_to_session_url;
              Enter m_keep_session_alive])
    /\ match fst (_setup_driver config env w) with
       | Ok _ => driver (snd (run_try config env w)) <> None
       | _ => driver (snd (run_try config env w)) = driver w
       end.
Proof.
  unfold run_try. exec.
  destruct (setup_driver_spec config env w) as ((evs0 & Ht0 & Hevs0%filter_unmarked) & Hd0).
  destruct (_setup_driver config env w) as [[[]|e|] w1]; cbn in *;
    [|exists evs0; split; [done|]; split; [by left|done]..].
  destruct (login_phase config env w1) as (Hd1 & evs1 & Ht1 & Hevs1%filter_unmarked).
  destruct (login config env w1) as [[[]|e|] w2]; cbn in *;
    [|exists (evs0 ++ Enter m_login :: evs1);
      rewrite Ht1, Ht0, <- app_assoc, List.filter_app, Hevs0; cbn; rewrite Hevs1;
      (split; [done|]; split; [right; by left|congruence])..].
  destruct (navigate_phase config env w2) as (Hd2 & evs2 & Ht2 & Hevs2%filter_unmarked).
  destruct (navigate_to_session_url config env w2) as [[[]|e|] w3]; cbn in *;
    [|exists (evs0 ++ Enter m_login :: evs1 ++ Enter m_navigate_to_session_url :: evs2);
      rewrite Ht2, Ht1, Ht0, <- !app_assoc, !List.filter_app, Hevs0; cbn;
      rewrite List.filter_app, Hevs1; cbn; rewrite Hevs2;
      (split; [done|]; split; [right; right; by left|congruence])..].
  destruct (keep_session_alive_phase config (cycles env) w3)
    as (Hd3 & evs3 & Ht3 & Hevs3%filter_unmarked).
  exists (evs0 ++ Enter m_login :: evs1 ++ Enter m_navigate_to_session_url :: evs2
            ++ Enter m_keep_session_alive :: evs3).
  destruct (keep_session_alive config (cycles env) w3) as [[b|e|] w4]; cbn in *;
    rewrite Ht3, Ht2, Ht1, Ht0, <- !app_assoc, !List.filter_app, Hevs0; cbn;
    rewrite List.filter_app, Hevs1; cbn; rewrite List.filter_app, Hevs2; cbn;
    rewrite Hevs3;
    (split; [done|]; split; [right; right; by right|congruence]).
Qed.

Lemma phases_entered_no_release evs :
  phases_entered evs ->
  List.filter (is_enter m_cleanup) evs = [] /\ List.filter is_quit evs = [].
Proof.
  intros H.
  rewrite (filter_markers (is_enter m_cleanup) evs), (filter_markers is_quit evs).
  - destruct H as [-> | [-> | [-> | ->]]]; done.
  - intros e He. unfold is_marker. rewrite He. apply orb_true_r.
  - intros e He. unfold is_marker. rewrite He. apply orb_true_iff. left. apply orb_true_r.
Qed.

(** C5: on every path on which [run] ends (a failed login, a failed
    navigation, the retry budget used up, an interruption, an exception out of
    any phase) [cleanup] is entered exactly once, and when the driver had been
    set up the browser is released by exactly one [driver.quit()]. *)
Theorem cleanup_runs_once config env w :
  fst (run config env w) <> Running ->
  count_events (is_enter m_cleanup) (snd (run config env w))
    = (count_events (is_enter m_cleanup) w + 1)%nat
  /\ (fst (_setup_driver config env w) = Ok () ->
      count_events is_quit (snd (run config env w))
        = (count_events is_quit w + 1)%nat).
Proof.
  unfold run. cbv [mbind M_bind emit try_finally]. cbn.
  set (w0 := World (driver w) (is_logged_in w) (trace w ++ [Enter m_run]) (log w)).
  destruct (run_try_spec config env w0) as (evs & Ht & Hmark & Hd).
  rewrite (setup_driver_outcome config env w0 w) in Hd.
  apply phases_entered_no_release in Hmark as [Hcl Hq].
  destruct (run_try config env w0) as [r w1]. cbn in Ht, Hd.
  destruct (cleanup_spec env w1) as (Hrun & Hdc & Htc).
  assert (Hcount : forall w2, trace w2 = trace w1 ++ Enter m_cleanup
                      :: match driver w1 with Some _ => [DriverQuit] | None => [] end ->
    count_events (is_enter m_cleanup) w2 = (count_events (is_enter m_cleanup) w + 1)%nat
    /\ (fst (_setup_driver config env w) = Ok () ->
        count_events is_quit w2 = (count_events is_quit w + 1)%nat)).
  { intros w2 Ht2. unfold count_events. rewrite Ht2, Ht. subst w0. cbn [trace].
    rewrite !List.filter_app, Hcl, Hq, !length_app. cbn. split.
    - destruct (driver w1); cbn; lia.
    - intros Hok. rewrite Hok in Hd. destruct (driver w1); [cbn; lia|done]. }
  destruct r as [b|e|]; cbn; [| |done];
    destruct (cleanup env w1) as [[[]|e'|] w2]; cbn in *; intros _;
    try done; by apply Hcount.
Qed.

Lemma cleanup_runs_once_witness :
  let config := sample_config (JInt 1) in
  let env := fake (Returns config) "https://example.org/home" [refresh_cycle false] in
  count_events (is_enter m_cleanup) (snd (run config env loaded))
    = (count_events (is_enter m_cleanup) loaded + 1)%nat
  /\ count_events is_quit (snd (run config env loaded))
    = (count_events is_quit loaded + 1)%nat.
Proof.
  intros config env.
  destruct (cleanup_runs_once config env loaded) as [Hcleanup Hquit]; [by vm_compute|].
  split; [exact Hcleanup|]. apply Hquit. by vm_compute.
Defined.




Lemma run_extends_try config env w :
  exists evs,
    trace (snd (run config env w))
    = trace (snd (run_try config env (snd (emit (Enter m_run) w)))) ++ evs.
Proof.
  unfold run. cbv [mbind M_bind emit try_finally]. cbn.
  destruct (run_try config env _) as [r w1]. cbn.
  destruct (cleanup_spec env w1) as (_ & _ & Ht).
  destruct r as [b|e|]; [| |exists []; by rewrite app_nil_r];
    destruct (cleanup env w1) as [[[]|e'|] w2]; cbn in *; rewrite Ht; by eexists.
Qed.

(** The trace of the [try] block of [run] goes on from the trace of each
    phase that returned what lets the next one start. *)
Lemma run_try_trace config env w0 w1 :
  _setup_driver config env w0 = (Ok (), w1) ->
  (exists evs,
     trace (snd (run_try config env w0)) = trace (snd (login config env w1)) ++ evs)
  /\ (forall w2,
      login config env w1 = (Ok true, w2) ->
      (exists evs,
         trace (snd (run_try config env w0))
         = trace (snd (navigate_to_session_url config env w2)) ++ evs)
      /\ (forall w3,
          navigate_to_session_url config env w2 = (Ok true, w3) ->
          trace (snd (run_try config env w0))
          = trace (snd (keep_session_alive config (cycles env) w3)))).
Proof.
  intros Hsetup. unfold run_try. cbv [mbind M_bind mret M_ret logger]. rewrite Hsetup.
  destruct (login config env w1) as [[[]|e|] w2] eqn:Hlogin; cbn;
    [|(split; [exists []; by rewrite app_nil_r|by intros ? [=]])..].
  destruct (navigate_phase config env w2) as (_ & evs2 & Ht2 & _).
  destruct (navigate_to_session_url config env w2) as [[[]|e|] w3] eqn:Hnav; cbn in *.
  - destruct (keep_session_alive_phase config (cycles env) w3) as (_ & evs3 & Ht3 & _).
    destruct (keep_session_alive config (cycles env) w3) as [[b|e|] w4] eqn:Hkeep;
      cbn in *;
      (split; [exists (Enter m_navigate_to_session_url :: evs2
                         ++ Enter m_keep_session_alive :: evs3);
               by rewrite Ht3, Ht2, <- app_assoc|]);
      intros ? [= <-]; rewrite Hnav; cbn;
      (split; [exists (Enter m_keep_session_alive :: evs3); by rewrite Ht3|]);
      intros ? [= <-]; by rewrite Hkeep.
  - split; [exists (Enter m_navigate_to_session_url :: evs2); by rewrite Ht2|].
    intros ? [= <-]. rewrite Hnav. cbn.
    split; [exists []; by rewrite app_nil_r|by intros ? [=]].
  - split; [exists (Enter m_navigate_to_session_url :: evs2); by rewrite Ht2|].
    intros ? [= <-]. rewrite Hnav. cbn.
    split; [exists []; by rewrite app_nil_r|by intros ? [=]].
  - split; [exists (Enter m_navigate_to_session_url :: evs2); by rewrite Ht2|].
    intros ? [= <-]. rewrite Hnav. cbn.
    split; [exists []; by rewrite app_nil_r|by intros ? [=]].
Qed.




(** ** The process *)

Lemma load_config_returns env config w :
  config_json env = Returns config ->
  fst (_load_config "config.json" env w) = Ok config.
Proof. intros H. unfold _load_config. rewrite H. by exec. Qed.

Lemma load_config_exits env e w :
  config_json env = Raises e ->
  is_FileNotFoundError e || is_JSONDecodeError e = true ->
  fst (_load_config "config.json" env w) = Raise (SystemExit 1).
Proof.
  intros H He. unfold _load_config. rewrite H. exec.
  destruct (is_FileNotFoundError e); [done|]. by destruct (is_JSONDecodeError e).
Qed.

Lemma main_load_failure env e :
  config_json env = Raises e ->
  is_FileNotFoundError e || is_JSONDecodeError e = true ->
  fst (main env start) = Raise (SystemExit 1)
  /\ trace (snd (main env start))
     = [Enter m_main; Enter m_load_config; OpenJson "config.json"].
Proof.
  intros H He. unfold main, __init__, _load_config. rewrite H. exec.
  destruct (is_FileNotFoundError e); [done|]. by destruct (is_JSONDecodeError e).
Qed.

Lemma main_loaded env config :
  config_json env = Returns config ->
  main env start =
  match run config env loaded with
  | (Ok _, w) =>
      (Ok (), World (driver w) (is_logged_in w) (trace w)
                (log w ++ [Entry INFO "=== Session Keeper finalizado ==="]))
  | (Raise e, w) => (Raise e, w)
  | (Running, w) => (Running, w)
  end.
Proof.
  intros H. unfold main, __init__, _load_config. rewrite H. exec.
  change (World None false _ _) with loaded.
  by destruct (run config env loaded) as [[]].
Qed.

Lemma process_fst env : fst (process env) = exit_code (fst (main env start)).
Proof. unfold process. by destruct (main env start). Qed.

Lemma process_snd env : snd (process env) = snd (main env start).
Proof. unfold process. by destruct (main env start). Qed.


Lemma setup_driver_chrome config ms env w :
  subscript config "session_settings" = Returns (JDict ms) ->
  exists arguments,
    trace (snd (_setup_driver config env w))
    = trace w ++ [Enter m_setup_driver; Chrome arguments].
Proof.
  intros Hss. unfold _setup_driver. rewrite Hss. exec.
  destruct (ms !! "headless") as [h|]; cbn; [destruct (truthy h); cbn|];
    (destruct (chrome env) as [d|e]; cbn; [|destruct (is_WebDriverException e); cbn]);
    rewrite <- ?app_assoc; by eexists.
Qed.

Lemma run_try_extends_setup config env w :
  exists evs,
    trace (snd (run_try config env w))
    = trace (snd (_setup_driver config env w)) ++ evs.
Proof.
  destruct (_setup_driver config env w) as [[[]|e|] w1] eqn:Hsetup.
  - destruct (run_try_trace config env w w1 Hsetup) as [(evs1 & Htry) _].
    destruct (login_phase config env w1) as (_ & evs0 & Hlogin & _).
    exists (Enter m_login :: evs0 ++ evs1). cbn. by rewrite Htry, Hlogin, <- app_assoc.
  - exists []. unfold run_try. cbv [mbind M_bind]. by rewrite Hsetup, app_nil_r.
  - exists []. unfold run_try. cbv [mbind M_bind]. by rewrite Hsetup, app_nil_r.
Qed.


(** C6 (amended): the loader checks the file, not the fields.  When
    [config.json] is missing or is not valid JSON the loader logs an error
    and ends the process with status 1 before the browser is touched;
    whatever parses is returned as the configuration, with or without the
    required keys.  A configuration that was read ends the process before the
    browser is touched, with status 1, exactly when its [session_settings] is
    not a dict; when it is one, Chrome is started whatever else is missing. *)
Theorem loader_checks_the_file_only env :
  (forall e,
     config_json env = Raises e ->
     is_FileNotFoundError e || is_JSONDecodeError e = true ->
     (forall w,
        fst (_load_config "config.json" env w) = Raise (SystemExit 1)
        /\ log (snd (_load_config "config.json" env w))
           = log w ++ [Entry ERROR (load_error_message e)])
     /\ fst (process env) = Some 1
     /\ count_events is_browser (snd (process env)) = 0%nat
     /\ last (log (snd (process env))) = Some (Entry ERROR (load_error_message e)))
  /\ (forall config w,
     config_json env = Returns config ->
     fst (_load_config "config.json" env w) = Ok config)
  /\ (forall config,
     config_json env = Returns config ->
     (forall ms, subscript config "session_settings" <> Returns (JDict ms)) ->
     fst (process env) = Some 1
     /\ count_events is_browser (snd (process env)) = 0%nat)
  /\ (forall config ms,
     config_json env = Returns config ->
     subscript config "session_settings" = Returns (JDict ms) ->
     (1 <= count_events is_browser (snd (process env)))%nat).
Proof.
  split; [|split; [|split]].
  - intros e H He. split.
    { intros w. unfold _load_config, load_error_message. rewrite H. exec.
      destruct (is_FileNotFoundError e); [done|].
      by destruct (is_JSONDecodeError e). }
    rewrite process_fst, process_snd. unfold count_events.
    unfold main, __init__, _load_config, load_error_message. rewrite H. exec.
    destruct (is_FileNotFoundError e); [done|].
    by destruct (is_JSONDecodeError e).
  - intros config w H. by apply load_config_returns.
  - intros config H Hno. rewrite process_fst, process_snd, (main_loaded env _ H).
    unfold run, run_try, _setup_driver, cleanup, count_events. exec.
    destruct config as [| | | | | |m]; cbn; try done.
    destruct (m !! "session_settings") as [x|] eqn:Hx; cbn; [|done].
    destruct x as [| | | | | |ms]; cbn; try done.
    destruct (Hno ms). cbn. by rewrite Hx.
  - intros config ms H Hss. rewrite process_snd, (main_loaded env _ H).
    destruct (run_extends_try config env loaded) as (evs & Hrun).
    destruct (run_try_extends_setup config env (snd (emit (Enter m_run) loaded)))
      as (evs1 & Htry).
    destruct (setup_driver_chrome config ms env (snd (emit (Enter m_run) loaded)) Hss)
      as (arguments & Hsetup).
    assert (Htrace : trace (snd (run config env loaded))
              = trace (snd (emit (Enter m_run) loaded))
                  ++ [Enter m_setup_driver; Chrome arguments] ++ evs1 ++ evs)
      by by rewrite Hrun, Htry, Hsetup, <- !app_assoc.
    unfold count_events.
    destruct (run config env loaded) as [[b|e|] w]; cbn in *;
      rewrite Htrace, ?List.filter_app, ?length_app; cbn; lia.
Qed.

Lemma loader_checks_the_file_only_witness :
  (fst (process (fake (Raises FileNotFoundError) "https://example.org/home" []))
     = Some 1
   /\ count_events is_browser
        (snd (process (fake (Raises FileNotFoundError) "https://example.org/home" [])))
      = 0%nat
   /\ last (log (snd (process (fake (Raises FileNotFoundError)
                                 "https://example.org/home" []))))
      = Some (Entry ERROR (load_error_message FileNotFoundError)))
  /\ fst (_load_config "config.json"
            (fake (Returns config_without_username) "https://example.org/home" [])
            start) = Ok config_without_username
  /\ (fst (process (fake (Returns (JDict {[ "session_settings" := JInt 5 ]}))
                      "https://example.org/home" [])) = Some 1
      /\ count_events is_browser
           (snd (process (fake (Returns (JDict {[ "session_settings" := JInt 5 ]}))
                            "https://example.org/home" [])))
         = 0%nat)
  /\ (1 <= count_events is_browser
             (snd (process (fake (Returns config_without_username)
                              "https://example.org/home" []))))%nat.
Proof.
  split; [|split; [|split]].
  - destruct (loader_checks_the_file_only
                (fake (Raises FileNotFoundError) "https://example.org/home" []))
      as (Hfile & _).
    destruct (Hfile FileNotFoundError) as (_ & Hcode & Hnone & Hlog); [reflexivity..|].
    split; [exact Hcode|]. split; [exact Hnone|exact Hlog].
  - destruct (loader_checks_the_file_only
                (fake (Returns config_without_username) "https://example.org/home" []))
      as (_ & Hparsed & _).
    apply Hparsed. reflexivity.
  - destruct (loader_checks_the_file_only
                (fake (Returns (JDict {[ "session_settings" := JInt 5 ]}))
                   "https://example.org/home" []))
      as (_ & _ & Hstop & _).
    apply (Hstop (JDict {[ "session_settings" := JInt 5 ]})); [reflexivity|].
    intros ms. by vm_compute.
  - destruct (loader_checks_the_file_only
                (fake (Returns config_without_username) "https://example.org/home" []))
      as (_ & _ & _ & Hstart).
    eapply (Hstart config_without_username); reflexivity.
Defined.

(** A configuration without [credentials.username] goes through the
    loader; the browser is started and driven, [login] returns [False] and
    the process ends with status 0. *)
Lemma missing_username_is_accepted :
  ~ rejects_missing_field config_without_username
      (fake (Returns config_without_username) "https://example.org/home" []).
Proof.
  intros H. destruct H as (_ & (code & Hcode & Hnonzero) & _); [by vm_compute|done|].
  vm_compute in Hcode. by injection Hcode as <-.
Qed.

Example missing_username_run :
  let env := fake (Returns config_without_username) "https://example.org/home" [] in
  missing_required config_without_username = true
  /\ fst (_load_config "config.json" env start) = Ok config_without_username
  /\ fst (process env) = Some 0
  /\ List.filter is_browser (trace (snd (process env)))
     = [Chrome ["--headless"; "--disable-gpu";
                "--disable-blink-features=AutomationControlled"; "--start-maximized"];
        DriverGet (JStr "https://example.org/login");
        WaitPresence By_NAME (JStr "user") (JInt 10);
        ElemClear (Element 1);
        DriverQuit].
Proof. by vm_compute. Qed.

(** C7 (amended): the exit status is 1 when the configuration file cannot
    be loaded and 0 whenever [run] returns, whatever it returns: after a clean
    end of the keepalive loop or an interruption of its sleep, and also after
    a failed login or a failed navigation, because [main] drops the result of
    [run]. *)
Theorem exit_code_ignores_run env :
  (forall e,
     config_json env = Raises e ->
     is_FileNotFoundError e || is_JSONDecodeError e = true ->
     fst (process env) = Some 1)
  /\ (forall config b,
     config_json env = Returns config ->
     fst (run config env loaded) = Ok b ->
     fst (process env) = Some 0).
Proof.
  split.
  - intros e H He. destruct (main_load_failure env e H He) as [Hr _].
    by rewrite process_fst, Hr.
  - intros config b H Hrun. rewrite process_fst, (main_loaded env _ H).
    destruct (run config env loaded) as [r w]. cbn in Hrun. by subst r.
Qed.

Lemma exit_code_ignores_run_witness :
  fst (process (fake (Raises JSONDecodeError) "https://example.org/home" [])) = Some 1
  /\ fst (process (fake (Returns (sample_config (JInt 3))) "https://example.org/home"
                     [interrupted_cycle])) = Some 0
  /\ fst (process (fake (Returns (sample_config (JInt 3))) "https://example.org/login"
                     [])) = Some 0.
Proof.
  split; [|split].
  - apply (proj1 (exit_code_ignores_run
             (fake (Raises JSONDecodeError) "https://example.org/home" [])))
      with JSONDecodeError; reflexivity.
  - apply (proj2 (exit_code_ignores_run
             (fake (Returns (sample_config (JInt 3))) "https://example.org/home"
                [interrupted_cycle])))
      with (sample_config (JInt 3)) true; [reflexivity|by vm_compute].
  - apply (proj2 (exit_code_ignores_run
             (fake (Returns (sample_config (JInt 3))) "https://example.org/login" [])))
      with (sample_config (JInt 3)) false; [reflexivity|by vm_compute].
Defined.

(** The browser stays on the login page: [login] and [run] return [False],
    and the process ends with status 0. *)
Lemma failed_login_exits_zero :
  ~ failed_run_exits_nonzero (sample_config (JInt 3))
      (fake (Returns (sample_config (JInt 3))) "https://example.org/login" []).
Proof.
  intros H. destruct H as (code & Hcode & Hnonzero); [done|by vm_compute|].
  vm_compute in Hcode. by injection Hcode as <-.
Qed.

(** * Further properties of the methods *)

(** ** [refresh_page] *)

(** X1: [refresh_page] returns [True] exactly when there is a driver and
    [driver.refresh()] returns; it turns every [Exception] into [False], and
    what it raises is what [driver.refresh()] raised outside [Exception]. *)
Theorem refresh_page_result c w :
  (fst (refresh_page c w) = Ok true
     <-> driver w <> None /\ refresh_reply c = Returns ())
  /\ (forall e, fst (refresh_page c w) = Raise e ->
        driver w <> None /\ refresh_reply c = Raises e /\ is_Exception e = false)
  /\ fst (refresh_page c w) <> Running.
Proof.
  unfold refresh_page. exec.
  destruct (driver w) as [d|]; cbn; [|by repeat split; try done; intros [? _]].
  destruct (refresh_reply c) as [[]|e]; cbn.
  - repeat split; done.
  - destruct (is_Exception e) eqn:He; cbn.
    + repeat split; try done. by intros [_ ?].
    + repeat split; try done; [by intros [_ ?]|congruence..].
Qed.

Lemma refresh_page_result_witness :
  driver with_driver <> None /\ refresh_reply (refresh_cycle true) = Returns ().
Proof.
  apply (proj1 (proj1 (refresh_page_result (refresh_cycle true) with_driver))).
  reflexivity.
Defined.

(** ** [navigate_to_session_url] *)

(** X2: with [session_url] configured and a driver, navigation returns
    [True] exactly when [driver.get(session_url)] and the two-second pause
    both return, whatever page the browser shows: it never reads the current
    URL.  An [Exception] from either call gives [False]. *)
Theorem navigate_result config env w url :
  subscript config "session_url" = Returns url ->
  driver w <> None ->
  (fst (navigate_to_session_url config env w) = Ok true
     <-> session_get env = Returns () /\ session_sleep env = Returns ())
  /\ (forall e, is_Exception e = true ->
        session_get env = Raises e
        \/ (session_get env = Returns () /\ session_sleep env = Raises e) ->
        fst (navigate_to_session_url config env w) = Ok false)
  /\ count_events is_current_url (snd (navigate_to_session_url config env w))
     = count_events is_current_url w
  /\ exists rest,
       trace (snd (navigate_to_session_url config env w))
       = trace w ++ Enter m_navigate_to_session_url :: DriverGet url :: rest.
Proof.
  intros Hurl Hd. destruct (driver w) as [d|] eqn:Hdw; [clear Hd|done].
  unfold navigate_to_session_url, count_events. rewrite Hurl. exec. rewrite Hdw. cbn.
  destruct (session_get env) as [[]|e1]; cbn;
    [destruct (session_sleep env) as [[]|e2]; cbn|];
    try (destruct (is_Exception e1) eqn:He1); try (destruct (is_Exception e2) eqn:He2);
    cbn; rewrite <- ?app_assoc, ?List.filter_app; cbn; rewrite ?app_nil_r;
    (split; [split; [try done; by intros [? ?]|try done; by intros [? ?]]|]);
    (split; [intros e He [H|[H1 H2]]; congruence|]);
    (split; [done|]); by eexists.
Qed.

Lemma navigate_result_witness :
  fst (navigate_to_session_url (sample_config (JInt 3))
         (with_session_get (Raises WebDriverException) (sample_env [])) with_driver)
  = Ok false.
Proof.
  eapply (proj1 (proj2 (navigate_result (sample_config (JInt 3)) _ with_driver
                  (JStr "https://example.org/home") eq_refl ltac:(done))))
    with WebDriverException; [reflexivity|by left].
Defined.

(** X3: a configuration without [session_url] makes navigation raise
    [KeyError] before the browser is asked anything. *)
Theorem navigate_missing_url m env w :
  m !! "session_url" = None ->
  fst (navigate_to_session_url (JDict m) env w) = Raise (KeyError "session_url")
  /\ trace (snd (navigate_to_session_url (JDict m) env w))
     = trace w ++ [Enter m_navigate_to_session_url].
Proof. intros Hm. unfold navigate_to_session_url. exec. by rewrite Hm. Qed.

Lemma navigate_missing_url_witness :
  fst (navigate_to_session_url (JDict ∅) (sample_env []) with_driver)
  = Raise (KeyError "session_url").
Proof. by apply navigate_missing_url. Defined.

(** ** [cleanup] *)

(** X4: [cleanup] leaves [self.driver] as it is.  Without a driver it
    returns at once; with one it calls [driver.quit()] every time it is
    called, so a second [cleanup] quits a second time. *)
Theorem cleanup_twice env w :
  driver (snd (cleanup env w)) = driver w
  /\ (driver w = None ->
      fst (cleanup env w) = Ok ()
      /\ trace (snd (cleanup env w)) = trace w ++ [Enter m_cleanup])
  /\ (driver w <> None -> quit env = Returns () ->
      fst ((cleanup env;; cleanup env) w) = Ok ()
      /\ count_events is_quit (snd ((cleanup env;; cleanup env) w))
         = (count_events is_quit w + 2)%nat).
Proof.
  unfold cleanup, count_events. exec. destruct (driver w) as [d|] eqn:Hd; cbn.
  - destruct (quit env) as [[]|e] eqn:Hq; cbn; rewrite ?Hq; cbn;
      (split; [done|]); (split; [done|]); intros _ Hret; [|done].
    cbn. rewrite !List.filter_app, !length_app. cbn. split; [done|lia].
  - split; [done|]. split; [done|]. by intros H.
Qed.

Lemma cleanup_twice_witness :
  count_events is_quit (snd ((cleanup (sample_env []);; cleanup (sample_env [])) with_driver))
  = (count_events is_quit with_driver + 2)%nat.
Proof.
  apply (proj2 (proj2 (cleanup_twice (sample_env []) with_driver))); [done|reflexivity].
Defined.

(** ** [keep_session_alive] *)

(** What one turn of the loop does, whatever the turns after it. *)
Lemma while_True_cons_cases ri mr rc c w :
  let tried :=
    [Sleep ri; Enter m_refresh_page]
      ++ match driver w with Some _ => [DriverRefresh] | None => [] end in
  (exists e w',
      (forall cs, while_True ri mr rc (c :: cs) w = (Raise e, w'))
      /\ sleep_reply c = Raises e /\ trace w' = trace w ++ [Sleep ri])
  \/ (sleep_reply c = Returns () /\
      ((exists e w',
          (forall cs, while_True ri mr rc (c :: cs) w = (Raise e, w'))
          /\ driver w <> None /\ refresh_reply c = Raises e /\ is_Exception e = false
          /\ trace w' = trace w ++ tried)
       \/ (exists w',
          (forall cs, while_True ri mr rc (c :: cs) w = (Raise TypeError, w'))
          /\ numeric mr = false /\ fst (refresh_page c w) = Ok false
          /\ trace w' = trace w ++ tried)
       \/ (exists w',
          (forall cs, while_True ri mr rc (c :: cs) w = (Ok false, w'))
          /\ fst (refresh_page c w) = Ok false
          /\ trace w' = trace w ++ tried)
       \/ (exists rc' w',
          (forall cs, while_True ri mr rc (c :: cs) w = while_True ri mr rc' cs w')
          /\ driver w' = driver w /\ trace w' = trace w ++ tried
          /\ (fst (refresh_page c w) = Ok true -> rc' = 0)))).
Proof.
  assert (Hge : forall e', py_ge (rc + 1) mr = Raises e' ->
            e' = TypeError /\ numeric mr = false).
  { intros e'. unfold py_ge. destruct mr; cbn; try done; by intros [= <-]. }
  cbn [while_True]. unfold refresh_page. exec.
  destruct (sleep_reply c) as [[]|e]; cbn;
    [right; split; [done|]|left; eexists _, _; split; [reflexivity|done]].
  destruct (driver w) eqn:Hd; cbn.
  - destruct (refresh_reply c) as [[]|e]; cbn.
    + do 3 right. eexists _, _. split; [reflexivity|]. cbn. by rewrite <- !app_assoc.
    + destruct (is_Exception e) eqn:He; cbn;
        [|left; eexists _, _; split; [reflexivity|]; cbn; by rewrite <- !app_assoc].
      destruct (py_ge (rc + 1) mr) as [[]|e'] eqn:Hpy; cbn.
      * right; right; left. eexists. split; [reflexivity|]. cbn. by rewrite <- !app_assoc.
      * do 3 right. eexists _, _. split; [reflexivity|]. cbn. by rewrite <- !app_assoc.
      * destruct (Hge e' eq_refl) as [-> Hn]. right; left.
        eexists. split; [reflexivity|]. cbn. by rewrite <- !app_assoc.
  - destruct (py_ge (rc + 1) mr) as [[]|e'] eqn:Hpy; cbn.
    * right; right; left. eexists. split; [reflexivity|]. cbn. by rewrite <- !app_assoc.
    * do 3 right. eexists _, _. split; [reflexivity|]. cbn. by rewrite <- !app_assoc.
    * destruct (Hge e' eq_refl) as [-> Hn]. right; left.
      eexists. split; [reflexivity|]. cbn. by rewrite <- !app_assoc.
Qed.

Lemma while_True_interrupt_source ri mr cs : forall rc w w',
  while_True ri mr rc cs w = (Raise KeyboardInterrupt, w') ->
  exists pre c post, cs = pre ++ c :: post /\ interrupted c.
Proof.
  induction cs as [|c cs IH]; intros rc w w' Hrun; [done|].
  destruct (while_True_cons_cases ri mr rc c w)
    as [(e & w1 & Heq & Hs & _)
       |[Hs [(e & w1 & Heq & _ & Hr & _)
            |[(w1 & Heq & _)
             |[(w1 & Heq & _)
              |(rc' & w1 & Heq & _)]]]]];
    rewrite Heq in Hrun; try done.
  - injection Hrun as -> _. exists [], c, cs. split; [done|by left].
  - injection Hrun as -> _. exists [], c, cs. split; [done|by right].
  - destruct (IH _ _ _ Hrun) as (pre & c' & post & -> & Hi).
    by exists (c :: pre), c', post.
Qed.

Lemma while_True_never_true ri mr cs : forall rc w,
  fst (while_True ri mr rc cs w) <> Ok true.
Proof.
  induction cs as [|c cs IH]; intros rc w; [done|].
  destruct (while_True_cons_cases ri mr rc c w)
    as [(e & w1 & Heq & _)
       |[_ [(e & w1 & Heq & _)
            |[(w1 & Heq & _)
             |[(w1 & Heq & _)
              |(rc' & w1 & Heq & _)]]]]];
    rewrite Heq; first [done|apply IH].
Qed.

(** The loop left, [keep_session_alive] has the trace of the loop and turns
    [KeyboardInterrupt] into [True]. *)
Lemma keep_session_alive_cases config cs w :
  (exists e, fst (keep_session_alive config cs w) = Raise e
     /\ trace (snd (keep_session_alive config cs w)) = trace w ++ [Enter m_keep_session_alive]
     /\ (subscript config "session_settings" = Raises e
         \/ exists ss, subscript config "session_settings" = Returns ss
              /\ (subscript ss "refresh_interval" = Raises e
                  \/ exists ri, subscript ss "refresh_interval" = Returns ri
                       /\ subscript ss "max_retries" = Raises e)))
  \/ (exists ss ri mr w0,
       subscript config "session_settings" = Returns ss
       /\ subscript ss "refresh_interval" = Returns ri
       /\ subscript ss "max_retries" = Returns mr
       /\ driver w0 = driver w
       /\ trace w0 = trace w ++ [Enter m_keep_session_alive]
       /\ trace (snd (keep_session_alive config cs w))
          = trace (snd (while_True ri mr 0 cs w0))
       /\ fst (keep_session_alive config cs w)
          = match fst (while_True ri mr 0 cs w0) with
            | Raise KeyboardInterrupt => Ok true
            | r => r
            end).
Proof.
  destruct (subscript config "session_settings") as [ss|e] eqn:Hss;
    [|left; exists e; unfold keep_session_alive; rewrite Hss; exec; auto].
  destruct (subscript ss "refresh_interval") as [ri|e] eqn:Hri;
    [|left; exists e; unfold keep_session_alive; rewrite Hss; exec; rewrite Hri;
      cbn; eauto 10].
  destruct (subscript ss "max_retries") as [mr|e] eqn:Hmr;
    [|left; exists e; unfold keep_session_alive; rewrite Hss; exec; rewrite Hri, Hmr;
      cbn; eauto 10].
  right. destruct (keep_session_alive_loop config ss ri mr Hss Hri Hmr w)
    as (w0 & Hd0 & Ht0 & Heq).
  exists ss, ri, mr, w0. repeat (split; [done|]). rewrite Heq.
  destruct (while_True ri mr 0 cs w0) as [[b|e|] w']; cbn; [done| |done].
  by destruct e.
Qed.

(** X5: [keep_session_alive] returns [True] only when Ctrl-C arrived, in a
    sleep or in a refresh; left alone the loop goes on or fails. *)
Theorem keepalive_true_means_interrupted config cs w :
  fst (keep_session_alive config cs w) = Ok true ->
  exists pre c post, cs = pre ++ c :: post /\ interrupted c.
Proof.
  intros Hrun.
  destruct (keep_session_alive_cases config cs w)
    as [(e & He & _)|(ss & ri & mr & w0 & _ & _ & _ & _ & _ & _ & Heq)];
    [congruence|].
  rewrite Heq in Hrun.
  destruct (while_True ri mr 0 cs w0) as [[[]|e|] w'] eqn:Hloop; cbn in Hrun; try done.
  - by destruct (while_True_never_true ri mr cs 0 w0); rewrite Hloop.
  - destruct e; try done. by apply (while_True_interrupt_source ri mr cs 0 w0 w').
Qed.

Lemma keepalive_true_means_interrupted_witness :
  exists pre c post,
    [refresh_cycle false; interrupted_cycle] = pre ++ c :: post /\ interrupted c.
Proof.
  apply (keepalive_true_means_interrupted (sample_config (JInt 3)) _ with_driver).
  reflexivity.
Defined.

(** X6: Ctrl-C during [driver.refresh()] is not an [Exception], so
    [refresh_page] lets it through and the keepalive phase stops with [True],
    as it does for Ctrl-C during the sleep. *)
Theorem interrupted_refresh_stops config pre c post w :
  driver w <> None ->
  fst (keep_session_alive config pre w) = Running ->
  sleep_reply c = Returns () ->
  refresh_reply c = Raises KeyboardInterrupt ->
  fst (keep_session_alive config (pre ++ c :: post) w) = Ok true.
Proof.
  intros Hd Hrun Hs Hr. destruct (driver w) as [d|] eqn:Hdw; [clear Hd|done].
  destruct (keep_session_alive_cases config pre w)
    as [(e & He & _)|(ss & ri & mr & w0 & Hss & Hri & Hmr & Hd0 & _ & _ & Heq)];
    [congruence|].
  destruct (keep_session_alive_loop config ss ri mr Hss Hri Hmr w)
    as (w0' & Hd0' & _ & Hloop).
  rewrite Hloop in Hrun |- *.
  assert (Hpre : fst (while_True ri mr 0 pre w0') = Running).
  { destruct (while_True ri mr 0 pre w0') as [[|e|] ?]; cbn in *; try done.
    by destruct (is_KeyboardInterrupt e). }
  destruct (while_True_still_running ri mr pre 0 w0' Hpre) as (rc & w1 & Hd1 & ->).
  destruct (step_refresh_escapes ri mr d rc c post w1 KeyboardInterrupt)
    as (w2 & -> & _); [congruence|done..].
Qed.

Lemma interrupted_refresh_stops_witness :
  fst (keep_session_alive (sample_config (JInt 3))
         ([refresh_cycle false]
            ++ Cycle (Returns ()) (Raises KeyboardInterrupt) :: [refresh_cycle false])
         with_driver) = Ok true.
Proof. apply interrupted_refresh_stops; done. Defined.

(** X7: when [session_settings] lacks [refresh_interval] or [max_retries],
    [keep_session_alive] raises [KeyError] on entry: it never sleeps and
    never refreshes. *)
Theorem keepalive_missing_setting config m cs w :
  subscript config "session_settings" = Returns (JDict m) ->
  m !! "refresh_interval" = None \/ m !! "max_retries" = None ->
  (exists key, fst (keep_session_alive config cs w) = Raise (KeyError key))
  /\ trace (snd (keep_session_alive config cs w))
     = trace w ++ [Enter m_keep_session_alive].
Proof.
  intros Hss Hm. unfold keep_session_alive. rewrite Hss. exec.
  destruct (m !! "refresh_interval") as [ri|] eqn:Hri; cbn; [|by eauto].
  destruct (m !! "max_retries") as [mr|] eqn:Hmr; cbn; [|by eauto].
  by destruct Hm.
Qed.

Lemma keepalive_missing_setting_witness :
  (exists key,
     fst (keep_session_alive
            (JDict {[ "session_settings" := JDict {[ "refresh_interval" := JInt 300 ]} ]})
            [refresh_cycle true] with_driver) = Raise (KeyError key))
  /\ trace (snd (keep_session_alive
                   (JDict {[ "session_settings" := JDict {[ "refresh_interval" := JInt 300 ]} ]})
                   [refresh_cycle true] with_driver))
     = trace with_driver ++ [Enter m_keep_session_alive].
Proof.
  apply keepalive_missing_setting with {[ "refresh_interval" := JInt 300 ]};
    [reflexivity|by right].
Defined.

Lemma while_True_successes ri mr pre : forall rc w,
  driver w <> None ->
  forallb (fun c => uninterrupted c && refreshed c) pre = true ->
  exists rc' w',
    (forall rest, while_True ri mr rc (pre ++ rest) w = while_True ri mr rc' rest w')
    /\ driver w' = driver w.
Proof.
  induction pre as [|c pre IH]; intros rc w Hd Hpre.
  - by exists rc, w.
  - cbn in Hpre. apply andb_prop in Hpre as [[Hc Hok]%andb_prop Hpre].
    apply uninterrupted_cases in Hc as [Hs [[Hr _]|(e & _ & _ & Hno)]]; [|congruence].
    assert (Hpage : fst (refresh_page c w) = Ok true)
      by by apply refresh_page_result.
    destruct (while_True_cons_cases ri mr rc c w)
      as [(e & w1 & Heq & Hs' & _)
         |[_ [(e & w1 & Heq & _ & Hr' & _)
              |[(w1 & Heq & _ & Hf & _)
               |[(w1 & Heq & Hf & _)
                |(rc1 & w1 & Heq & Hd1 & _)]]]]]; try congruence.
    destruct (IH rc1 w1 ltac:(congruence) Hpre) as (rc' & w' & Heq' & Hd').
    exists rc', w'. split; [|congruence].
    intros rest. cbn [app]. by rewrite Heq, Heq'.
Qed.

(** X8: a [max_retries] that is not a number goes unnoticed as long as the
    refreshes succeed; the first failed refresh compares the counter with it
    and the [TypeError] leaves [keep_session_alive]. *)
Theorem keepalive_bad_max_retries config ss ri mr pre c post w e :
  subscript config "session_settings" = Returns ss ->
  subscript ss "refresh_interval" = Returns ri ->
  subscript ss "max_retries" = Returns mr ->
  numeric mr = false ->
  driver w <> None ->
  forallb (fun c => uninterrupted c && refreshed c) pre = true ->
  sleep_reply c = Returns () ->
  refresh_reply c = Raises e -> is_Exception e = true ->
  fst (keep_session_alive config pre w) = Running
  /\ fst (keep_session_alive config (pre ++ c :: post) w) = Raise TypeError.
Proof.
  intros Hss Hri Hmr Hnum Hd Hpre Hs Hr He.
  destruct (keep_session_alive_loop config ss ri mr Hss Hri Hmr w)
    as (w0 & Hd0 & _ & Heq).
  rewrite !Heq.
  destruct (while_True_successes ri mr pre 0 w0 ltac:(congruence) Hpre)
    as (rc & w1 & Hloop & Hd1).
  rewrite Hloop. specialize (Hloop []). rewrite app_nil_r in Hloop. rewrite Hloop.
  split; [done|].
  destruct (driver w1) as [d|] eqn:Hdw1; [|congruence].
  destruct (step_failure ri mr d rc c post w1 e Hdw1 Hs Hr He) as (w2 & _ & _ & ->).
  unfold py_ge. by destruct mr.
Qed.

Lemma keepalive_bad_max_retries_witness :
  fst (keep_session_alive (sample_config (JStr "3"))
         ([refresh_cycle true; refresh_cycle true] ++ refresh_cycle false :: [])
         with_driver) = Raise TypeError.
Proof.
  eapply (keepalive_bad_max_retries (sample_config (JStr "3")));
    try reflexivity; done.
Defined.

Lemma while_True_sleeps ri mr d cs : forall rc w,
  driver w = Some d ->
  exists n,
    count_events is_refresh (snd (while_True ri mr rc cs w))
      = (count_events is_refresh w + n)%nat
    /\ (count_events is_sleep (snd (while_True ri mr rc cs w))
          = (count_events is_sleep w + n)%nat
        \/ (count_events is_sleep (snd (while_True ri mr rc cs w))
              = (count_events is_sleep w + S n)%nat
            /\ exists e, fst (while_True ri mr rc cs w) = Raise e)).
Proof.
  induction cs as [|c cs IH]; intros rc w Hd.
  - exists 0%nat. cbn. split; [lia|left; lia].
  - destruct (while_True_cons_cases ri mr rc c w)
      as [(e & w1 & Heq & _ & Ht)
         |[_ [(e & w1 & Heq & _ & _ & _ & Ht)
              |[(w1 & Heq & _ & _ & Ht)
               |[(w1 & Heq & _ & Ht)
                |(rc1 & w1 & Heq & Hd1 & Ht & _)]]]]];
      rewrite Heq; rewrite ?Hd in Ht; cbn in Ht; cbn [fst snd];
      pose proof (count_events_app is_refresh _ _ _ Ht) as Hr;
      pose proof (count_events_app is_sleep _ _ _ Ht) as Hsl; cbn in Hr, Hsl.
    + exists 0%nat. split; [lia|]. right. split; [lia|by eexists].
    + exists 1%nat. split; [lia|left; lia].
    + exists 1%nat. split; [lia|left; lia].
    + exists 1%nat. split; [lia|left; lia].
    + destruct (IH rc1 w1 ltac:(congruence)) as (n & Hn & Hsn).
      exists (S n). split; [lia|]. destruct Hsn as [Hsn|[Hsn He]]; [left; lia|].
      right. split; [lia|done].
Qed.

(** X9: the keepalive phase sleeps before every refresh.  With a driver, a
    run of it holds as many sleeps as refreshes, or one more when it ended
    in a sleep that raised. *)
Theorem keepalive_sleeps_before_refresh config cs w :
  driver w <> None ->
  exists n,
    count_events is_refresh (snd (keep_session_alive config cs w))
      = (count_events is_refresh w + n)%nat
    /\ (count_events is_sleep (snd (keep_session_alive config cs w))
          = (count_events is_sleep w + n)%nat
        \/ (count_events is_sleep (snd (keep_session_alive config cs w))
              = (count_events is_sleep w + S n)%nat
            /\ fst (keep_session_alive config cs w) <> Ok false
            /\ fst (keep_session_alive config cs w) <> Running)).
Proof.
  intros Hd. destruct (driver w) as [d|] eqn:Hdw; [clear Hd|done].
  destruct (keep_session_alive_cases config cs w)
    as [(e & He & Ht & _)|(ss & ri & mr & w0 & _ & _ & _ & Hd0 & Ht0 & Ht & Heq)].
  - exists 0%nat.
    rewrite (count_events_app is_refresh _ _ _ Ht), (count_events_app is_sleep _ _ _ Ht).
    cbn. split; [lia|left; lia].
  - destruct (while_True_sleeps ri mr d cs 0 w0 ltac:(congruence)) as (n & Hn & Hsn).
    pose proof (count_events_app is_refresh _ _ _ Ht0) as Hr0.
    pose proof (count_events_app is_sleep _ _ _ Ht0) as Hs0. cbn in Hr0, Hs0.
    unfold count_events in *. rewrite Ht, Heq. exists n. split; [lia|].
    destruct Hsn as [Hsn|[Hsn [e He]]]; [left; lia|right].
    split; [lia|]. rewrite He. by destruct e.
Qed.

Lemma keepalive_sleeps_before_refresh_witness :
  exists n,
    count_events is_refresh
      (snd (keep_session_alive (sample_config (JInt 3))
              [refresh_cycle true; interrupted_cycle] with_driver))
      = (count_events is_refresh with_driver + n)%nat
    /\ (count_events is_sleep
          (snd (keep_session_alive (sample_config (JInt 3))
                  [refresh_cycle true; interrupted_cycle] with_driver))
          = (count_events is_sleep with_driver + n)%nat
        \/ (count_events is_sleep
              (snd (keep_session_alive (sample_config (JInt 3))
                      [refresh_cycle true; interrupted_cycle] with_driver))
              = (count_events is_sleep with_driver + S n)%nat
            /\ fst (keep_session_alive (sample_config (JInt 3))
                      [refresh_cycle true; interrupted_cycle] with_driver) <> Ok false
            /\ fst (keep_session_alive (sample_config (JInt 3))
                      [refresh_cycle true; interrupted_cycle] with_driver) <> Running)).
Proof. by apply keepalive_sleeps_before_refresh. Defined.

(** ** [login] *)

(** X10: the keys [login] reads before its [try] are not guarded: without
    [login_url], [credentials], [form_fields], [session_settings] or
    [session_settings.timeout] it raises [KeyError] and asks the browser
    nothing. *)
Theorem login_missing_key m env w :
  m !! "login_url" = None \/ m !! "credentials" = None
  \/ m !! "form_fields" = None \/ m !! "session_settings" = None
  \/ (exists ms, m !! "session_settings" = Some (JDict ms) /\ ms !! "timeout" = None) ->
  (exists key, fst (login (JDict m) env w) = Raise (KeyError key))
  /\ trace (snd (login (JDict m) env w)) = trace w ++ [Enter m_login].
Proof.
  intros Hm. unfold login. cbv [mbind M_bind emit lift of_reply]. cbn [subscript].
  destruct (m !! "login_url") eqn:H1; cbn [fst snd trace]; [|by eauto].
  destruct (m !! "credentials") eqn:H2; cbn [fst snd trace]; [|by eauto].
  destruct (m !! "form_fields") eqn:H3; cbn [fst snd trace]; [|by eauto].
  destruct (m !! "session_settings") as [ss|] eqn:H4; cbn [fst snd trace]; [|by eauto].
  destruct Hm as [?|[?|[?|[?|(ms & [= ->] & Hms)]]]]; try done.
  cbn [subscript]. rewrite Hms. cbn. by eauto.
Qed.

Lemma login_missing_key_witness :
  (exists key,
     fst (login (JDict {[ "login_url" := JStr "https://example.org/login" ]})
            (sample_env []) with_driver) = Raise (KeyError key))
  /\ trace (snd (login (JDict {[ "login_url" := JStr "https://example.org/login" ]})
                   (sample_env []) with_driver))
     = trace with_driver ++ [Enter m_login].
Proof. apply login_missing_key. right. by left. Defined.

Lemma try_except_closed {A} (m : M A) handler w :
  (forall e, is_Exception e = true ->
     exists h, handler e = Some h /\ forall w', exists a w'', h w' = (Ok a, w'')) ->
  (forall e, is_Exception e = false -> handler e = None) ->
  match fst (try_except m handler w) with
  | Raise e => is_Exception e = false
  | _ => True
  end.
Proof.
  intros Hyes Hno. unfold try_except. destruct (m w) as [[a|e|] w']; cbn; [done| |done].
  destruct (is_Exception e) eqn:He.
  - destruct (Hyes e He) as (h & -> & Hh). by destruct (Hh w') as (a & w'' & ->).
  - by rewrite (Hno e He).
Qed.

(** X11: with the keys it reads up front in place, [login] fails closed:
    whatever the browser does, no [Exception] leaves it.  It returns, or it
    lets through what is not an [Exception] ([KeyboardInterrupt],
    [SystemExit]). *)
Theorem login_fails_closed config env w login_url credentials form_fields ss timeout :
  subscript config "login_url" = Returns login_url ->
  subscript config "credentials" = Returns credentials ->
  subscript config "form_fields" = Returns form_fields ->
  subscript config "session_settings" = Returns ss ->
  subscript ss "timeout" = Returns timeout ->
  match fst (login config env w) with
  | Raise e => is_Exception e = false
  | _ => True
  end.
Proof.
  intros H1 H2 H3 H4 H5. unfold login. rewrite H1, H2, H3, H4.
  cbv [mbind M_bind emit lift of_reply logger]. rewrite H5.
  apply try_except_closed.
  - intros e He. destruct (is_TimeoutException e); rewrite ?He;
      (eexists; split; [reflexivity|]; intros w'; by eexists _, _).
  - intros e He. rewrite He. by destruct e.
Qed.

Lemma login_fails_closed_witness :
  match fst (login (sample_config (JInt 3))
               (override None (Some (Raises WebDriverException)) None None (sample_env []))
               with_driver) with
  | Raise e => is_Exception e = false
  | _ => True
  end.
Proof. eapply (login_fails_closed (sample_config (JInt 3))); reflexivity. Defined.

(** X12: called before there is a driver, [login] returns [False] without
    a single call to the browser. *)
Theorem login_without_driver config env w login_url credentials form_fields ss timeout :
  subscript config "login_url" = Returns login_url ->
  subscript config "credentials" = Returns credentials ->
  subscript config "form_fields" = Returns form_fields ->
  subscript config "session_settings" = Returns ss ->
  subscript ss "timeout" = Returns timeout ->
  driver w = None ->
  fst (login config env w) = Ok false
  /\ trace (snd (login config env w)) = trace w ++ [Enter m_login]
  /\ is_logged_in (snd (login config env w)) = is_logged_in w.
Proof.
  intros H1 H2 H3 H4 H5 Hd. unfold login. rewrite H1, H2, H3, H4.
  exec. rewrite H5. cbn. rewrite Hd. by cbn.
Qed.

Lemma login_without_driver_witness :
  fst (login (sample_config (JInt 3)) (sample_env []) without_driver) = Ok false
  /\ trace (snd (login (sample_config (JInt 3)) (sample_env []) without_driver))
     = trace without_driver ++ [Enter m_login]
  /\ is_logged_in (snd (login (sample_config (JInt 3)) (sample_env []) without_driver))
     = is_logged_in without_driver.
Proof. eapply (login_without_driver (sample_config (JInt 3))); reflexivity. Defined.

(** X13: when the username field does not show up, [login] gives up there:
    it returns [False], the password field is never looked for, and the last
    log line is the timeout message for a [TimeoutException] and the general
    one for any other [Exception]. *)
Theorem login_wait_fails config env w login_url credentials form_fields ss timeout name e :
  subscript config "login_url" = Returns login_url ->
  subscript config "credentials" = Returns credentials ->
  subscript config "form_fields" = Returns form_fields ->
  subscript config "session_settings" = Returns ss ->
  subscript ss "timeout" = Returns timeout ->
  subscript form_fields "username_field" = Returns name ->
  driver w <> None ->
  login_get env = Returns () ->
  username_wait env = Raises e -> is_Exception e = true ->
  fst (login config env w) = Ok false
  /\ trace (snd (login config env w))
     = trace w ++ [Enter m_login; DriverGet login_url; WaitPresence By_NAME name timeout]
  /\ last (log (snd (login config env w)))
     = Some (Entry ERROR
               (if is_TimeoutException e
                then "Timeout al esperar elementos del formulario (timeout: {timeout}s)"
                else "Error durante el login: {e}")).
Proof.
  intros H1 H2 H3 H4 H5 H6 Hd Hget Hwait He.
  destruct (driver w) as [d|] eqn:Hdw; [clear Hd|done].
  unfold login. rewrite H1, H2, H3, H4, Hget, Hwait.
  exec. repeat (progress (rewrite ?H5, ?H6, ?Hdw; cbn)).
  destruct (is_TimeoutException e); cbn; rewrite ?He; cbn;
    (split; [done|]; split; [by rewrite <- !app_assoc|apply last_snoc]).
Qed.

Lemma login_wait_fails_witness :
  last (log (snd (login (sample_config (JInt 3))
                    (override None (Some (Raises TimeoutException)) None None
                       (sample_env []))
                    with_driver)))
  = Some (Entry ERROR "Timeout al esperar elementos del formulario (timeout: {timeout}s)").
Proof.
  eapply (login_wait_fails (sample_config (JInt 3)) _ with_driver _ _ _ _ _ _
            TimeoutException); try reflexivity; done.
Defined.

Section KeepsFlag.
Context {A B : Type}.

Lemma keeps_flag_ret (a : A) : keeps_flag (mret a).
Proof. done. Qed.

Lemma keeps_flag_raise e : keeps_flag (raise e : M A).
Proof. done. Qed.

Lemma keeps_flag_lift (r : reply A) : keeps_flag (lift r).
Proof. done. Qed.

Lemma keeps_flag_bind (m : M A) (k : A -> M B) :
  keeps_flag m -> (forall a, keeps_flag (k a)) -> keeps_flag (m ≫= k).
Proof.
  intros Hm Hk w. unfold mbind, M_bind. specialize (Hm w).
  destruct (m w) as [[a|e|] w1]; cbn in *; [|done..].
  by rewrite (Hk a w1).
Qed.

Lemma keeps_flag_try_except (m : M A) handler :
  keeps_flag m ->
  (forall e, match handler e with Some h => keeps_flag h | None => True end) ->
  keeps_flag (try_except m handler).
Proof.
  intros Hm Hh w. unfold try_except. specialize (Hm w).
  destruct (m w) as [[a|e|] w1]; cbn in *; [done| |done].
  specialize (Hh e). destruct (handler e) as [h|]; [|done]. by rewrite (Hh w1).
Qed.

Lemma keeps_flag_call e (r : reply A) : keeps_flag (call e r).
Proof. intros w. unfold call. exec. by destruct r. Qed.

Lemma keeps_flag_driver_call e (r : reply A) : keeps_flag (driver_call e r).
Proof. intros w. unfold driver_call. exec. destruct (driver w); [by destruct r|done]. Qed.
End KeepsFlag.

Lemma keeps_flag_logger l msg : keeps_flag (logger l msg).
Proof. done. Qed.

Lemma keeps_flag_emit e : keeps_flag (emit e).
Proof. done. Qed.

Ltac solve_keeps_flag :=
  repeat first
    [ apply keeps_flag_ret | apply keeps_flag_raise | apply keeps_flag_lift
    | apply keeps_flag_logger | apply keeps_flag_emit
    | apply keeps_flag_call | apply keeps_flag_driver_call
    | apply keeps_flag_bind; [|intros ?]
    | apply keeps_flag_try_except; [|intros ?; unfold except_Exception]
    | exact I
    | match goal with
      | |- keeps_flag (if ?b then _ else _) => destruct b
      | |- keeps_flag (match ?x with _ => _ end) => destruct x
      | |- match (if ?b then _ else _) with _ => _ end => destruct b
      end ].

Lemma keeps_flag_locate_submit_button form_fields env :
  keeps_flag (locate_submit_button form_fields env).
Proof. unfold locate_submit_button. solve_keeps_flag. Qed.

Lemma signals_login_bind {A} (m : M A) (k : A -> M bool) :
  keeps_flag m -> (forall a, signals_login (k a)) -> signals_login (m ≫= k).
Proof.
  intros Hm Hk w. unfold mbind, M_bind. specialize (Hm w).
  destruct (m w) as [[a|e|] w1]; cbn in *; [|by right..].
  rewrite <- Hm. apply Hk.
Qed.

Lemma signals_login_try_except (m : M bool) handler :
  signals_login m ->
  (forall e, match handler e with Some h => signals_login h | None => True end) ->
  signals_login (try_except m handler).
Proof.
  intros Hm Hh w. unfold try_except. specialize (Hm w).
  destruct (m w) as [[a|e|] w1]; cbn in *; [done| |done].
  destruct Hm as [[? _]|[_ Hm]]; [done|].
  specialize (Hh e). destruct (handler e) as [h|]; [|by right].
  rewrite <- Hm. apply Hh.
Qed.

Lemma signals_login_false (m : M ()) :
  keeps_flag m -> signals_login (m;; mret false).
Proof.
  intros Hm w. right. unfold mbind, M_bind. specialize (Hm w).
  by destruct (m w) as [[a|e|] w1].
Qed.

(** X14: [self.is_logged_in] follows the result of [login]: it is [True]
    after a [login] that returned [True], and a [login] that did anything
    else leaves it as it was; [login] never clears it. *)
Theorem login_sets_flag config env w :
  (fst (login config env w) = Ok true ->
     is_logged_in (snd (login config env w)) = true)
  /\ (fst (login config env w) <> Ok true ->
     is_logged_in (snd (login config env w)) = is_logged_in w).
Proof.
  assert (H : signals_login (login config env)).
  { unfold login.
    repeat (apply signals_login_bind; [solve_keeps_flag|intros ?]).
    apply signals_login_try_except.
    - repeat (apply signals_login_bind;
                [solve_keeps_flag; apply keeps_flag_locate_submit_button|intros ?]).
      match goal with |- signals_login (if ?b then _ else _) => destruct b end.
      + intros w'. by left.
      + apply signals_login_false. solve_keeps_flag.
    - intros e. destruct (is_TimeoutException e);
        [|destruct (is_Exception e); [|done]];
        apply signals_login_false; solve_keeps_flag. }
  destruct (H w) as [[Hr Hf]|[Hr Hf]]; split; intros; congruence.
Qed.

Lemma login_sets_flag_witness :
  is_logged_in (snd (login (sample_config (JInt 3)) (sample_env []) with_driver)) = true.
Proof.
  apply (proj1 (login_sets_flag (sample_config (JInt 3)) (sample_env []) with_driver)).
  reflexivity.
Defined.

(** ** [_setup_driver], [run] and [main] *)

Lemma run_unfold config env w :
  run config env w
  = try_finally (run_try config env) (cleanup env) (snd (emit (Enter m_run) w)).
Proof. reflexivity. Qed.

Lemma cleanup_returns env w :
  quit env = Returns () -> fst (cleanup env w) = Ok ().
Proof.
  intros Hq. unfold cleanup. exec. destruct (driver w); [|done]. by rewrite Hq.
Qed.

(** X15: with [session_settings] in place, [_setup_driver] starts Chrome
    once, always with the two automation flags and with the headless flags
    exactly when [headless] is truthy; a missing [headless] means a visible
    browser.  What Chrome returns becomes [self.driver]. *)
Theorem setup_driver_launches config m env w d :
  subscript config "session_settings" = Returns (JDict m) ->
  chrome env = Returns d ->
  fst (_setup_driver config env w) = Ok ()
  /\ driver (snd (_setup_driver config env w)) = Some d
  /\ trace (snd (_setup_driver config env w))
     = trace w ++
       [Enter m_setup_driver;
        Chrome ((match m !! "headless" with
                 | Some h => if truthy h then ["--headless"; "--disable-gpu"] else []
                 | None => []
                 end)
                  ++ ["--disable-blink-features=AutomationControlled";
                      "--start-maximized"])].
Proof.
  intros Hss Hc. unfold _setup_driver. rewrite Hss, Hc. exec.
  destruct (m !! "headless") as [h|]; cbn; [destruct (truthy h); cbn|];
    by rewrite <- !app_assoc.
Qed.

Lemma setup_driver_launches_witness :
  trace (snd (_setup_driver
                (JDict {[ "session_settings" := JDict ∅ ]}) (sample_env []) without_driver))
  = trace without_driver ++
    [Enter m_setup_driver;
     Chrome ["--disable-blink-features=AutomationControlled"; "--start-maximized"]].
Proof.
  destruct (setup_driver_launches (JDict {[ "session_settings" := JDict ∅ ]}) ∅
              (sample_env []) without_driver ChromeDriver) as (_ & _ & Htrace);
    [reflexivity..|exact Htrace].
Defined.

(** X16: when Chrome cannot be started ([WebDriverException] or one of its
    subclasses), [_setup_driver] raises [SystemExit(1)] and leaves
    [self.driver] unset; [run] then raises it too, without entering [login]
    and without a [driver.quit()], and the process ends with status 1. *)
Theorem setup_failure_exits config env w ss h e :
  subscript config "session_settings" = Returns ss ->
  py_get ss "headless" (JBool false) = Returns h ->
  chrome env = Raises e ->
  is_WebDriverException e = true ->
  driver w = None ->
  fst (_setup_driver config env w) = Raise (SystemExit 1)
  /\ driver (snd (_setup_driver config env w)) = None
  /\ fst (run config env w) = Raise (SystemExit 1)
  /\ count_events is_quit (snd (run config env w)) = count_events is_quit w
  /\ count_events (is_enter m_login) (snd (run config env w))
     = count_events (is_enter m_login) w
  /\ (w = loaded -> config_json env = Returns config -> fst (process env) = Some 1).
Proof.
  intros Hss Hh Hc He Hd.
  assert (Hrun : fst (run config env w) = Raise (SystemExit 1)
                 /\ count_events is_quit (snd (run config env w)) = count_events is_quit w
                 /\ count_events (is_enter m_login) (snd (run config env w))
                    = count_events (is_enter m_login) w).
  { unfold run, run_try, _setup_driver, cleanup, count_events.
    rewrite Hss, Hc. exec. rewrite Hh. cbn.
    destruct (truthy h); cbn; rewrite He; cbn; rewrite Hd; cbn;
      rewrite !List.filter_app; cbn; by rewrite !app_nil_r. }
  split; [|split; [|split; [|split; [|split]]]]; try apply Hrun.
  - unfold _setup_driver. rewrite Hss, Hc. exec. rewrite Hh. cbn.
    destruct (truthy h); cbn; by rewrite He.
  - unfold _setup_driver. rewrite Hss, Hc. exec. rewrite Hh. cbn.
    destruct (truthy h); cbn; by rewrite He.
  - intros -> Hcfg. rewrite process_fst, (main_loaded env config Hcfg).
    destruct Hrun as [Hr _]. destruct (run config env loaded) as [r w']. cbn in Hr.
    by subst r.
Qed.

Lemma setup_failure_exits_witness :
  fst (process (override (Some (Raises WebDriverException)) None None None (sample_env [])))
  = Some 1.
Proof.
  eapply (setup_failure_exits (sample_config (JInt 3)) _ loaded); reflexivity.
Defined.

(** X17: [run] drops what [keep_session_alive] returns: once login and
    navigation have succeeded it returns [True], after an interruption and
    after the retry budget ran out alike. *)
Theorem run_ignores_keepalive config env w w0 w1 w2 w3 w4 b :
  emit (Enter m_run) w = (Ok (), w0) ->
  _setup_driver config env w0 = (Ok (), w1) ->
  login config env w1 = (Ok true, w2) ->
  navigate_to_session_url config env w2 = (Ok true, w3) ->
  keep_session_alive config (cycles env) w3 = (Ok b, w4) ->
  quit env = Returns () ->
  fst (run config env w) = Ok true.
Proof.
  intros [= <-] Hsetup Hlogin Hnav Hkeep Hq.
  pose proof (cleanup_returns env w4 Hq) as Hc.
  rewrite run_unfold. unfold try_finally, run_try. cbv [mbind M_bind mret M_ret emit].
  cbn. rewrite Hsetup, Hlogin. cbn. rewrite Hnav. cbn. rewrite Hkeep.
  destruct (cleanup env w4) as [r w5]. cbn in Hc. by subst r.
Qed.

Lemma run_ignores_keepalive_witness :
  fst (run (sample_config (JInt 1))
         (fake (Returns (sample_config (JInt 1))) "https://example.org/home"
            [refresh_cycle false]) loaded) = Ok true.
Proof.
  eapply (run_ignores_keepalive (sample_config (JInt 1)) _ loaded _ _ _ _ _ false);
    try (vm_compute; reflexivity).
Defined.

(** X18: an exception out of [driver.quit()] replaces whatever the [try]
    block of [run] had returned or raised. *)
Theorem run_quit_raises config env w w0 r w1 e :
  emit (Enter m_run) w = (Ok (), w0) ->
  run_try config env w0 = (r, w1) ->
  r <> Running ->
  driver w1 <> None ->
  quit env = Raises e ->
  fst (run config env w) = Raise e.
Proof.
  intros [= <-] Htry Hr Hd Hq. rewrite run_unfold. unfold try_finally. cbn.
  rewrite Htry. unfold cleanup. exec. destruct (driver w1); [|done].
  rewrite Hq. cbn. by destruct r.
Qed.

Lemma run_quit_raises_witness :
  fst (run (sample_config (JInt 3))
         (override None None None (Some (Raises WebDriverException))
            (fake (Returns (sample_config (JInt 3))) "https://example.org/login" []))
         loaded) = Raise WebDriverException.
Proof.
  eapply (run_quit_raises (sample_config (JInt 3)) _ loaded _ (Ok false));
    try (vm_compute; reflexivity); by vm_compute.
Defined.

(** X19: what [login] raises leaves [run] as well, after [cleanup] has quit
    the browser and with navigation never attempted.  Ctrl-C while the login
    is under way therefore ends the process with an uncaught
    [KeyboardInterrupt]. *)
Theorem run_login_raises config env w w0 w1 w2 e :
  emit (Enter m_run) w = (Ok (), w0) ->
  _setup_driver config env w0 = (Ok (), w1) ->
  login config env w1 = (Raise e, w2) ->
  quit env = Returns () ->
  fst (run config env w) = Raise e
  /\ trace (snd (run config env w)) = trace w2 ++ [Enter m_cleanup; DriverQuit]
  /\ (w = loaded -> config_json env = Returns config ->
      fst (process env) = exit_code (Raise e)).
Proof.
  intros [= <-] Hsetup Hlogin Hq.
  pose proof (setup_driver_spec config env
    (World (driver w) (is_logged_in w) (trace w ++ [Enter m_run]) (log w))) as [_ Hd1].
  destruct (login_phase config env w1) as (Hd2 & _).
  rewrite Hsetup in Hd1. rewrite Hlogin in Hd2. cbn in Hd1, Hd2.
  assert (Hrun : fst (run config env w) = Raise e
            /\ trace (snd (run config env w)) = trace w2 ++ [Enter m_cleanup; DriverQuit]).
  { rewrite run_unfold. unfold try_finally, run_try. cbv [mbind M_bind emit]. cbn.
    rewrite Hsetup, Hlogin. unfold cleanup. exec.
    destruct (driver w2); [|congruence]. rewrite Hq. cbn. by rewrite <- app_assoc. }
  split; [apply Hrun|]. split; [apply Hrun|].
  intros -> Hcfg. rewrite process_fst, (main_loaded env config Hcfg).
  destruct Hrun as [Hr _]. destruct (run config env loaded) as [r w']. cbn in Hr.
  by subst r.
Qed.

Lemma run_login_raises_witness :
  fst (process (override None None (Some (Raises KeyboardInterrupt)) None (sample_env [])))
  = Some 130.
Proof.
  eapply (run_login_raises (sample_config (JInt 3)) _ loaded _ _ _ KeyboardInterrupt);
    try (vm_compute; reflexivity).
Defined.

(** ** [_load_config] *)

(** X20: [_load_config] handles a missing file and invalid JSON only.  Any
    other failure to read the file (a permission error, say) leaves it as it
    was raised, with no error logged, and leaves [main] too. *)
Theorem load_config_other_error env e w :
  config_json env = Raises e ->
  is_FileNotFoundError e = false ->
  is_JSONDecodeError e = false ->
  fst (_load_config "config.json" env w) = Raise e
  /\ log (snd (_load_config "config.json" env w)) = log w
  /\ fst (main env start) = Raise e.
Proof.
  intros H H1 H2. unfold main, __init__, _load_config. rewrite H. exec.
  by rewrite H1, H2.
Qed.

Lemma load_config_other_error_witness :
  fst (main (fake (Raises OSError) "https://example.org/home" []) start) = Raise OSError.
Proof.
  destruct (load_config_other_error (fake (Raises OSError) "https://example.org/home" [])
              OSError start) as (_ & _ & Hmain); [reflexivity..|exact Hmain].
Defined.
